(** * ExamClient: the exam session controller

    A shallow embedding of [src/components/exam/ExamClient.tsx].  The React
    component keeps its session in [useState] cells and two [useRef] cells;
    every callback of the component is embedded as a function on one record
    holding those cells together with the part of the browser the callbacks
    touch (the fullscreen element, the [lastExamData] slot of localStorage,
    the interval and the document listeners) and the list of effects they
    request (toasts, storage writes, navigation). *)

From Stdlib Require Import ZArith List Bool Lia DecimalString QArith.
From Stdlib Require Import Sorted DecimalZ.
From stdpp Require Import base gmap strings list.

Open Scope Z_scope.

(** ** Data model *)

(** Modelled from the spec: the [Question] type is imported from
    [@/lib/types], which is not among the sources.  The component reads
    [id], [topic], [question] and [options]; the answer key is opaque to it. *)
Record Question := {
  id : Z;
  topic : string;
  question : string;
  options : list string;
  correctAnswer : string
}.

(** The object handed to [JSON.stringify] in [handleSubmit]. *)
Record Snapshot := {
  snapAnswers : gmap Z string;
  snapQuestions : list Question;
  snapExamName : string;
  snapStartedAt : string;
  snapSubmittedAt : string
}.

(** What the callbacks ask of their surroundings. *)
Inductive effect :=
| Toast (destructive : bool) (title description : string)
| ExitFullscreen
| RequestFullscreen
| LocalRemoveItem (key : string)
| LocalSetItem (key : string) (value : Snapshot)
| SessionRemoveItem (key : string)
| SetTimeoutReplace (path : string) (delay : Z)
| RouterPush (path : string)
| ConsoleError.

Definition EXAM_DURATION : Z := 2 * 60 * 60.
Definition MAX_VIOLATIONS : Z := 3.

(** The cells of the component ([useState], [useRef]) followed by the
    browser state its callbacks read and write. *)
Record state := {
  questions : option (list Question);
  currentQuestionIndex : Z;
  answers : gmap Z string;
  markedForReview : list Z;
  timeLeft : Z;
  isSubmitDialogOpen : bool;
  isExitDialogOpen : bool;
  examName : string;
  isSubmitting : bool;
  startedAt : string;
  violationCount : Z;
  isViolationDialogOpen : bool;
  violationMessage : string;
  fullscreenElement : bool;
  canRequestFullscreen : bool;
  lastExamData : option Snapshot;
  timer : bool;
  listeners : bool;
  effects : list effect
}.

Definition setQuestions (v : option (list Question)) (st : state) : state :=
  {| questions := v; currentQuestionIndex := currentQuestionIndex st;
     answers := answers st; markedForReview := markedForReview st;
     timeLeft := timeLeft st; isSubmitDialogOpen := isSubmitDialogOpen st;
     isExitDialogOpen := isExitDialogOpen st; examName := examName st;
     isSubmitting := isSubmitting st; startedAt := startedAt st;
     violationCount := violationCount st;
     isViolationDialogOpen := isViolationDialogOpen st;
     violationMessage := violationMessage st;
     fullscreenElement := fullscreenElement st;
     canRequestFullscreen := canRequestFullscreen st;
     lastExamData := lastExamData st; timer := timer st;
     listeners := listeners st; effects := effects st |}.

Definition setCurrentQuestionIndex (v : Z) (st : state) : state :=
  {| questions := questions st; currentQuestionIndex := v;
     answers := answers st; markedForReview := markedForReview st;
     timeLeft := timeLeft st; isSubmitDialogOpen := isSubmitDialogOpen st;
     isExitDialogOpen := isExitDialogOpen st; examName := examName st;
     isSubmitting := isSubmitting st; startedAt := startedAt st;
     violationCount := violationCount st;
     isViolationDialogOpen := isViolationDialogOpen st;
     violationMessage := violationMessage st;
     fullscreenElement := fullscreenElement st;
     canRequestFullscreen := canRequestFullscreen st;
     lastExamData := lastExamData st; timer := timer st;
     listeners := listeners st; effects := effects st |}.

Definition setAnswers (v : gmap Z string) (st : state) : state :=
  {| questions := questions st;
     currentQuestionIndex := currentQuestionIndex st; answers := v;
     markedForReview := markedForReview st; timeLeft := timeLeft st;
     isSubmitDialogOpen := isSubmitDialogOpen st;
     isExitDialogOpen := isExitDialogOpen st; examName := examName st;
     isSubmitting := isSubmitting st; startedAt := startedAt st;
     violationCount := violationCount st;
     isViolationDialogOpen := isViolationDialogOpen st;
     violationMessage := violationMessage st;
     fullscreenElement := fullscreenElement st;
     canRequestFullscreen := canRequestFullscreen st;
     lastExamData := lastExamData st; timer := timer st;
     listeners := listeners st; effects := effects st |}.

Definition setMarkedForReview (v : list Z) (st : state) : state :=
  {| questions := questions st;
     currentQuestionIndex := currentQuestionIndex st; answers := answers st;
     markedForReview := v; timeLeft := timeLeft st;
     isSubmitDialogOpen := isSubmitDialogOpen st;
     isExitDialogOpen := isExitDialogOpen st; examName := examName st;
     isSubmitting := isSubmitting st; startedAt := startedAt st;
     violationCount := violationCount st;
     isViolationDialogOpen := isViolationDialogOpen st;
     violationMessage := violationMessage st;
     fullscreenElement := fullscreenElement st;
     canRequestFullscreen := canRequestFullscreen st;
     lastExamData := lastExamData st; timer := timer st;
     listeners := listeners st; effects := effects st |}.

Definition setTimeLeft (v : Z) (st : state) : state :=
  {| questions := questions st;
     currentQuestionIndex := currentQuestionIndex st; answers := answers st;
     markedForReview := markedForReview st; timeLeft := v;
     isSubmitDialogOpen := isSubmitDialogOpen st;
     isExitDialogOpen := isExitDialogOpen st; examName := examName st;
     isSubmitting := isSubmitting st; startedAt := startedAt st;
     violationCount := violationCount st;
     isViolationDialogOpen := isViolationDialogOpen st;
     violationMessage := violationMessage st;
     fullscreenElement := fullscreenElement st;
     canRequestFullscreen := canRequestFullscreen st;
     lastExamData := lastExamData st; timer := timer st;
     listeners := listeners st; effects := effects st |}.

Definition setIsSubmitDialogOpen (v : bool) (st : state) : state :=
  {| questions := questions st;
     currentQuestionIndex := currentQuestionIndex st; answers := answers st;
     markedForReview := markedForReview st; timeLeft := timeLeft st;
     isSubmitDialogOpen := v; isExitDialogOpen := isExitDialogOpen st;
     examName := examName st; isSubmitting := isSubmitting st;
     startedAt := startedAt st; violationCount := violationCount st;
     isViolationDialogOpen := isViolationDialogOpen st;
     violationMessage := violationMessage st;
     fullscreenElement := fullscreenElement st;
     canRequestFullscreen := canRequestFullscreen st;
     lastExamData := lastExamData st; timer := timer st;
     listeners := listeners st; effects := effects st |}.

Definition setIsExitDialogOpen (v : bool) (st : state) : state :=
  {| questions := questions st;
     currentQuestionIndex := currentQuestionIndex st; answers := answers st;
     markedForReview := markedForReview st; timeLeft := timeLeft st;
     isSubmitDialogOpen := isSubmitDialogOpen st; isExitDialogOpen := v;
     examName := examName st; isSubmitting := isSubmitting st;
     startedAt := startedAt st; violationCount := violationCount st;
     isViolationDialogOpen := isViolationDialogOpen st;
     violationMessage := violationMessage st;
     fullscreenElement := fullscreenElement st;
     canRequestFullscreen := canRequestFullscreen st;
     lastExamData := lastExamData st; timer := timer st;
     listeners := listeners st; effects := effects st |}.

Definition setExamName (v : string) (st : state) : state :=
  {| questions := questions st;
     currentQuestionIndex := currentQuestionIndex st; answers := answers st;
     markedForReview := markedForReview st; timeLeft := timeLeft st;
     isSubmitDialogOpen := isSubmitDialogOpen st;
     isExitDialogOpen := isExitDialogOpen st; examName := v;
     isSubmitting := isSubmitting st; startedAt := startedAt st;
     violationCount := violationCount st;
     isViolationDialogOpen := isViolationDialogOpen st;
     violationMessage := violationMessage st;
     fullscreenElement := fullscreenElement st;
     canRequestFullscreen := canRequestFullscreen st;
     lastExamData := lastExamData st; timer := timer st;
     listeners := listeners st; effects := effects st |}.

Definition setIsSubmitting (v : bool) (st : state) : state :=
  {| questions := questions st;
     currentQuestionIndex := currentQuestionIndex st; answers := answers st;
     markedForReview := markedForReview st; timeLeft := timeLeft st;
     isSubmitDialogOpen := isSubmitDialogOpen st;
     isExitDialogOpen := isExitDialogOpen st; examName := examName st;
     isSubmitting := v; startedAt := startedAt st;
     violationCount := violationCount st;
     isViolationDialogOpen := isViolationDialogOpen st;
     violationMessage := violationMessage st;
     fullscreenElement := fullscreenElement st;
     canRequestFullscreen := canRequestFullscreen st;
     lastExamData := lastExamData st; timer := timer st;
     listeners := listeners st; effects := effects st |}.

Definition setViolationCount (v : Z) (st : state) : state :=
  {| questions := questions st;
     currentQuestionIndex := currentQuestionIndex st; answers := answers st;
     markedForReview := markedForReview st; timeLeft := timeLeft st;
     isSubmitDialogOpen := isSubmitDialogOpen st;
     isExitDialogOpen := isExitDialogOpen st; examName := examName st;
     isSubmitting := isSubmitting st; startedAt := startedAt st;
     violationCount := v; isViolationDialogOpen := isViolationDialogOpen st;
     violationMessage := violationMessage st;
     fullscreenElement := fullscreenElement st;
     canRequestFullscreen := canRequestFullscreen st;
     lastExamData := lastExamData st; timer := timer st;
     listeners := listeners st; effects := effects st |}.

Definition setIsViolationDialogOpen (v : bool) (st : state) : state :=
  {| questions := questions st;
     currentQuestionIndex := currentQuestionIndex st; answers := answers st;
     markedForReview := markedForReview st; timeLeft := timeLeft st;
     isSubmitDialogOpen := isSubmitDialogOpen st;
     isExitDialogOpen := isExitDialogOpen st; examName := examName st;
     isSubmitting := isSubmitting st; startedAt := startedAt st;
     violationCount := violationCount st; isViolationDialogOpen := v;
     violationMessage := violationMessage st;
     fullscreenElement := fullscreenElement st;
     canRequestFullscreen := canRequestFullscreen st;
     lastExamData := lastExamData st; timer := timer st;
     listeners := listeners st; effects := effects st |}.

Definition setViolationMessage (v : string) (st : state) : state :=
  {| questions := questions st;
     currentQuestionIndex := currentQuestionIndex st; answers := answers st;
     markedForReview := markedForReview st; timeLeft := timeLeft st;
     isSubmitDialogOpen := isSubmitDialogOpen st;
     isExitDialogOpen := isExitDialogOpen st; examName := examName st;
     isSubmitting := isSubmitting st; startedAt := startedAt st;
     violationCount := violationCount st;
     isViolationDialogOpen := isViolationDialogOpen st;
     violationMessage := v; fullscreenElement := fullscreenElement st;
     canRequestFullscreen := canRequestFullscreen st;
     lastExamData := lastExamData st; timer := timer st;
     listeners := listeners st; effects := effects st |}.

Definition setFullscreenElement (v : bool) (st : state) : state :=
  {| questions := questions st;
     currentQuestionIndex := currentQuestionIndex st; answers := answers st;
     markedForReview := markedForReview st; timeLeft := timeLeft st;
     isSubmitDialogOpen := isSubmitDialogOpen st;
     isExitDialogOpen := isExitDialogOpen st; examName := examName st;
     isSubmitting := isSubmitting st; startedAt := startedAt st;
     violationCount := violationCount st;
     isViolationDialogOpen := isViolationDialogOpen st;
     violationMessage := violationMessage st; fullscreenElement := v;
     canRequestFullscreen := canRequestFullscreen st;
     lastExamData := lastExamData st; timer := timer st;
     listeners := listeners st; effects := effects st |}.

Definition setLastExamData (v : option Snapshot) (st : state) : state :=
  {| questions := questions st;
     currentQuestionIndex := currentQuestionIndex st; answers := answers st;
     markedForReview := markedForReview st; timeLeft := timeLeft st;
     isSubmitDialogOpen := isSubmitDialogOpen st;
     isExitDialogOpen := isExitDialogOpen st; examName := examName st;
     isSubmitting := isSubmitting st; startedAt := startedAt st;
     violationCount := violationCount st;
     isViolationDialogOpen := isViolationDialogOpen st;
     violationMessage := violationMessage st;
     fullscreenElement := fullscreenElement st;
     canRequestFullscreen := canRequestFullscreen st; lastExamData := v;
     timer := timer st; listeners := listeners st; effects := effects st |}.

Definition setTimer (v : bool) (st : state) : state :=
  {| questions := questions st;
     currentQuestionIndex := currentQuestionIndex st; answers := answers st;
     markedForReview := markedForReview st; timeLeft := timeLeft st;
     isSubmitDialogOpen := isSubmitDialogOpen st;
     isExitDialogOpen := isExitDialogOpen st; examName := examName st;
     isSubmitting := isSubmitting st; startedAt := startedAt st;
     violationCount := violationCount st;
     isViolationDialogOpen := isViolationDialogOpen st;
     violationMessage := violationMessage st;
     fullscreenElement := fullscreenElement st;
     canRequestFullscreen := canRequestFullscreen st;
     lastExamData := lastExamData st; timer := v; listeners := listeners st;
     effects := effects st |}.

Definition setListeners (v : bool) (st : state) : state :=
  {| questions := questions st;
     currentQuestionIndex := currentQuestionIndex st; answers := answers st;
     markedForReview := markedForReview st; timeLeft := timeLeft st;
     isSubmitDialogOpen := isSubmitDialogOpen st;
     isExitDialogOpen := isExitDialogOpen st; examName := examName st;
     isSubmitting := isSubmitting st; startedAt := startedAt st;
     violationCount := violationCount st;
     isViolationDialogOpen := isViolationDialogOpen st;
     violationMessage := violationMessage st;
     fullscreenElement := fullscreenElement st;
     canRequestFullscreen := canRequestFullscreen st;
     lastExamData := lastExamData st; timer := timer st; listeners := v;
     effects := effects st |}.

Definition setEffects (v : list effect) (st : state) : state :=
  {| questions := questions st;
     currentQuestionIndex := currentQuestionIndex st; answers := answers st;
     markedForReview := markedForReview st; timeLeft := timeLeft st;
     isSubmitDialogOpen := isSubmitDialogOpen st;
     isExitDialogOpen := isExitDialogOpen st; examName := examName st;
     isSubmitting := isSubmitting st; startedAt := startedAt st;
     violationCount := violationCount st;
     isViolationDialogOpen := isViolationDialogOpen st;
     violationMessage := violationMessage st;
     fullscreenElement := fullscreenElement st;
     canRequestFullscreen := canRequestFullscreen st;
     lastExamData := lastExamData st; timer := timer st;
     listeners := listeners st; effects := v |}.

Definition emit (e : effect) (st : state) : state :=
  setEffects (effects st ++ [e]) st.

(** The state of a freshly mounted component. *)
Definition mount (now : string) (fullscreen canFullscreen : bool)
    (stored : option Snapshot) : state :=
  {| questions := None; currentQuestionIndex := 0; answers := ∅;
     markedForReview := []; timeLeft := EXAM_DURATION;
     isSubmitDialogOpen := false; isExitDialogOpen := false;
     examName := "ECET Exam"; isSubmitting := false; startedAt := now;
     violationCount := 0; isViolationDialogOpen := false;
     violationMessage := ""; fullscreenElement := fullscreen;
     canRequestFullscreen := canFullscreen; lastExamData := stored;
     timer := false; listeners := false; effects := [] |}.

(** ** Helpers standing for JavaScript primitives *)

(** [`${n}`] for an integer [n]. *)
Definition showZ (n : Z) : string := NilZero.string_of_int (Z.to_int n).

(** [qs[i]]: [undefined] outside the array. *)
Definition at_index (qs : list Question) (i : Z) : option Question :=
  if 0 <=? i then qs !! Z.to_nat i else None.

(** [prev.includes(x)] on an array of numbers. *)
Definition includes (l : list Z) (x : Z) : bool :=
  existsb (Z.eqb x) l.

(** ** The submission protocol *)

Definition snapshot (now : string) (qs : list Question) (st : state)
    : Snapshot :=
  {| snapAnswers := answers st; snapQuestions := qs;
     snapExamName := examName st; snapStartedAt := startedAt st;
     snapSubmittedAt := now |}.

Definition handleSubmit (now : string) (st : state) : state :=
  if isSubmitting st then st
  else
    let st := setIsSubmitting true st in
    let st := if fullscreenElement st then emit ExitFullscreen st else st in
    let st :=
      match questions st with
      | Some qs =>
          let snap := snapshot now qs st in
          emit (LocalSetItem "lastExamData" snap)
               (setLastExamData (Some snap) st)
      | None => st
      end in
    emit (SetTimeoutReplace "/results" 100) st.

(** ** The violation monitor *)

Definition terminatedDescription : string :=
  "You have exceeded the maximum of " +:+ showZ MAX_VIOLATIONS +:+
  " violations. Your exam has been submitted.".

Definition warningMessage (message : string) (count : Z) : string :=
  message +:+ ". You have " +:+ showZ (MAX_VIOLATIONS - count) +:+
  " warning(s) left.".

Definition handleViolation (now message : string) (st : state) : state :=
  let st := setViolationCount (violationCount st + 1) st in
  if MAX_VIOLATIONS <=? violationCount st then
    handleSubmit now
      (emit (Toast true "Exam Terminated" terminatedDescription) st)
  else
    setIsViolationDialogOpen true
      (setViolationMessage (warningMessage message (violationCount st)) st).

Definition handleFullscreenChange (now : string) (st : state) : state :=
  if negb (fullscreenElement st)
  then handleViolation now "You have exited fullscreen mode" st
  else st.

Definition handleVisibilityChange (hidden : bool) (now : string)
    (st : state) : state :=
  if hidden
  then handleViolation now "You have switched to another tab or window" st
  else st.

(** ** The timer *)

(** The callback given to [setInterval]: one [setTimeLeft] update. *)
Definition tick (now : string) (st : state) : state :=
  if timeLeft st <=? 1 then
    let st := setTimer false st in
    let st :=
      emit (Toast false "Time's Up!"
              "Your exam has been submitted automatically.") st in
    let st := handleSubmit now st in
    setTimeLeft 0 st
  else setTimeLeft (timeLeft st - 1) st.

(** ** Answers, review marks and position *)

Definition handleAnswerSelect (questionId : Z) (answer : string)
    (st : state) : state :=
  setAnswers (<[questionId := answer]> (answers st)) st.

Definition handleMarkForReview (questionId : Z) (st : state) : state :=
  setMarkedForReview
    (if includes (markedForReview st) questionId
     then filter (λ i, i ≠ questionId) (markedForReview st)
     else markedForReview st ++ [questionId])
    st.

(** [None] stands for the [TypeError] of reading [.id] of [undefined]. *)
Definition clearResponse (st : state) : option state :=
  match questions st with
  | None => Some st
  | Some qs =>
      match at_index qs (currentQuestionIndex st) with
      | None => None
      | Some q => Some (setAnswers (delete (id q) (answers st)) st)
      end
  end.

Definition onClickPrev (st : state) : state :=
  setCurrentQuestionIndex (Z.max 0 (currentQuestionIndex st - 1)) st.

Definition onClickNext (qs : list Question) (st : state) : state :=
  setCurrentQuestionIndex
    (Z.min (Z.of_nat (length qs) - 1) (currentQuestionIndex st + 1)) st.

Definition requestFullscreen (st : state) : state :=
  if canRequestFullscreen st then emit RequestFullscreen st else st.

Definition acknowledgeViolation (st : state) : state :=
  requestFullscreen (setIsViolationDialogOpen false st).

(** ** Loading the questions *)

(** [shuffleArray]: every question is tagged with one draw of
    [Math.random], the array is sorted on the tags (the sort of an array is
    stable) and the tags are dropped.  [random i] is the draw for the
    element at position [i]. *)
Fixpoint insertByKey (x : Q * Question) (l : list (Q * Question))
    : list (Q * Question) :=
  match l with
  | [] => [x]
  | y :: l' =>
      if Qle_bool (fst x) (fst y) then x :: y :: l'
      else y :: insertByKey x l'
  end.

Definition sortByKey (l : list (Q * Question)) : list (Q * Question) :=
  foldr insertByKey [] l.

Definition shuffleArray (random : nat → Q) (array : list Question)
    : list Question :=
  map snd (sortByKey (imap (λ i q, (random i, q)) array)).

(** The query string of the page. *)
Record SearchParams := {
  customExamKey : option string;
  examSlug : option string;
  year : option string;
  offlineTestKey : option string;
  examBoard : option string;
  examNameParam : option string
}.

Record OfflineData := {
  offlineQuestions : list Question;
  offlineExamName : string;
  offlineYear : string
}.

(** What the question sources answer: the two storage items (already
    parsed) and the outcome of the request for the data set, [None] when
    the item is missing or the request fails. *)
Record Sources := {
  customQuestionsStr : option (list Question);
  customExamNameItem : option string;
  offlineDataRaw : option OfflineData;
  fetched : option (list Question)
}.

(** Truthiness of a nullable string. *)
Definition truthy (o : option string) : bool :=
  match o with
  | Some s => negb (String.eqb s "")
  | None => false
  end.

(** [o || d] on a nullable string. *)
Definition orElse (o : option string) (d : string) : string :=
  if truthy o then default d o else d.

Definition errorToast (title description : string) : effect :=
  Toast true title description.

(** The body of [loadQuestions] up to the final guard: the state reached
    and the value of [loadedQuestions] there, or [None] when the function
    has returned early (after a toast and a redirection). *)
Definition resolveQuestions (p : SearchParams) (src : Sources) (st : state)
    : state * option (list Question) :=
  let st := emit (LocalRemoveItem "lastExamData") (setLastExamData None st) in
  if truthy (customExamKey p) then
    match customQuestionsStr src with
    | Some loaded =>
        let st :=
          setExamName (orElse (customExamNameItem src) "AI Custom Test") st in
        let st := emit (SessionRemoveItem (default "" (customExamKey p))) st in
        let st := emit (SessionRemoveItem "customExamName") st in
        (st, Some loaded)
    | None =>
        (emit (RouterPush "/exams")
           (emit (errorToast "Error" "Custom exam data not found.") st),
         None)
    end
  else if truthy (offlineTestKey p) then
    match offlineDataRaw src with
    | Some offlineData =>
        let st :=
          setExamName
            (offlineExamName offlineData +:+ " - " +:+
             offlineYear offlineData +:+ " (Offline)") st in
        (st, Some (offlineQuestions offlineData))
    | None =>
        (emit (RouterPush "/exams/offline")
           (emit (errorToast "Error" "Offline exam data not found.") st),
         None)
    end
  else if truthy (examSlug p) && truthy (year p) && truthy (examBoard p) then
    let st := setExamName (orElse (examNameParam p) "ECET Exam") st in
    match fetched src with
    | Some loaded => (st, Some loaded)
    | None =>
        (emit (RouterPush "/exams")
           (emit (errorToast "Error Loading Questions"
                    "Could not load the question paper. It might not be available yet.")
              (emit ConsoleError st)),
         None)
    end
  else
    (emit (RouterPush "/exams")
       (emit (errorToast "Error"
                "Invalid exam parameters. Please select an exam again.") st),
     None).

Definition loadQuestions (p : SearchParams) (src : Sources) (st : state)
    : state :=
  match resolveQuestions p src st with
  | (st, Some loadedQuestions) =>
      if 0 <? Z.of_nat (length loadedQuestions)
      then setQuestions (Some loadedQuestions) st
      else st
  | (st, None) => st
  end.

(** ** The effect that installs the timer and the listeners *)

Definition cleanupExamEffect (st : state) : state :=
  setListeners false (setTimer false st).

Definition examEffect (st : state) : state :=
  match questions st with
  | None => st
  | Some _ => setListeners true (setTimer true st)
  end.

(** The effect depends on [handleSubmit], hence on [answers], [questions]
    and [examName]: after a render that changed one of them the previous
    interval and listeners are removed and the effect runs again. *)
Definition rerunExamEffect (st : state) : state :=
  examEffect (cleanupExamEffect st).

(** Mounting the component and letting [loadQuestions] finish. *)
Definition start (now : string) (fullscreen canFullscreen : bool)
    (stored : option Snapshot) (p : SearchParams) (src : Sources) : state :=
  rerunExamEffect
    (loadQuestions p src
       (examEffect (mount now fullscreen canFullscreen stored))).

(** ** What is on screen, and the events the page can receive *)

Inductive screen := LoadingScreen | ExamScreen.

Definition render (st : state) : screen :=
  match questions st with
  | None => LoadingScreen
  | Some _ => ExamScreen
  end.

Inductive event :=
| IntervalTick (now : string)
| FullscreenChange (element : bool) (now : string)
| VisibilityChange (hidden : bool) (now : string)
| RadioValueChange (value : string)
| ClickMarkForReview
| ClickClearResponse
| ClickPrev
| ClickNext
| PaletteSetIndex (i : Z)
| SetSubmitDialog (open : bool)
| SetExitDialog (open : bool)
| SetViolationDialog (open : bool)
| ConfirmSubmit (now : string)
| ConfirmExit (now : string)
| AcknowledgeViolation.

(** A click reaches a handler only when the exam screen is rendered for a
    current question, a dialog button only while its dialog is open, a
    disabled button never. *)
Definition click (ev : event) (qs : list Question) (q : Question)
    (st : state) : state :=
  match ev with
  | RadioValueChange value =>
      rerunExamEffect (handleAnswerSelect (id q) value st)
  | ClickMarkForReview => handleMarkForReview (id q) st
  | ClickClearResponse =>
      match clearResponse st with
      | Some st' => rerunExamEffect st'
      | None => st
      end
  | ClickPrev =>
      if currentQuestionIndex st =? 0 then st else onClickPrev st
  | ClickNext =>
      if currentQuestionIndex st =? Z.of_nat (length qs) - 1 then st
      else onClickNext qs st
  | PaletteSetIndex i => setCurrentQuestionIndex i st
  | SetSubmitDialog open => setIsSubmitDialogOpen open st
  | SetExitDialog open => setIsExitDialogOpen open st
  | SetViolationDialog open => setIsViolationDialogOpen open st
  | ConfirmSubmit now =>
      if isSubmitDialogOpen st then
        handleSubmit now
          (emit (Toast false "Exam Submitted!" "Your answers have been saved.")
             (setIsSubmitDialogOpen false st))
      else st
  | ConfirmExit now =>
      if isExitDialogOpen st
      then handleSubmit now (setIsExitDialogOpen false st)
      else st
  | AcknowledgeViolation =>
      if isViolationDialogOpen st then acknowledgeViolation st else st
  | _ => st
  end.

Definition dispatch (ev : event) (st : state) : state :=
  match ev with
  | IntervalTick now => if timer st then tick now st else st
  | FullscreenChange element now =>
      let st := setFullscreenElement element st in
      if listeners st then handleFullscreenChange now st else st
  | VisibilityChange hidden now =>
      if listeners st then handleVisibilityChange hidden now st else st
  | _ =>
      match questions st with
      | None => st
      | Some qs =>
          match at_index qs (currentQuestionIndex st) with
          | None => st
          | Some q => click ev qs q st
          end
      end
  end.

Definition run (evs : list event) (st : state) : state :=
  fold_left (λ s ev, dispatch ev s) evs st.

(** ** Observations on the effect list *)

Definition isSnapshotWrite (e : effect) : bool :=
  match e with
  | LocalSetItem key _ => String.eqb key "lastExamData"
  | _ => false
  end.

Definition isResultsNavigation (e : effect) : bool :=
  match e with
  | SetTimeoutReplace path _ => String.eqb path "/results"
  | _ => false
  end.

Definition isNavigation (e : effect) : bool :=
  match e with
  | SetTimeoutReplace _ _ | RouterPush _ => true
  | _ => false
  end.

Definition count (p : effect → bool) (l : list effect) : nat :=
  length (List.filter p l).

Definition snapshotWrites (st : state) : nat :=
  count isSnapshotWrite (effects st).

Definition resultsNavigations (st : state) : nat :=
  count isResultsNavigation (effects st).

Definition navigations (st : state) : nat :=
  count isNavigation (effects st).

(** ** Repeated calls *)

Definition submits (nows : list string) (st : state) : state :=
  fold_left (λ s now, handleSubmit now s) nows st.

Definition ticks (nows : list string) (st : state) : state :=
  fold_left (λ s now, tick now s) nows st.

(** [settled st st']: going from [st] to [st'] the latch is set and nothing
    was written to the result slot nor any navigation requested. *)
Definition settled (st st' : state) : Prop :=
  isSubmitting st' = true ∧
  lastExamData st' = lastExamData st ∧
  snapshotWrites st' = snapshotWrites st ∧
  resultsNavigations st' = resultsNavigations st ∧
  navigations st' = navigations st.

(** ** A three-question session used in the examples *)

Definition question1 : Question :=
  {| id := 1; topic := "Algebra"; question := "2 + 2 = ?";
     options := ["3"; "4"; "5"]; correctAnswer := "4" |}.

Definition question2 : Question :=
  {| id := 2; topic := "Logic"; question := "Is true true?";
     options := ["yes"; "no"]; correctAnswer := "yes" |}.

Definition question5 : Question :=
  {| id := 5; topic := "Units"; question := "Seconds in a minute?";
     options := ["30"; "60"]; correctAnswer := "60" |}.

Definition paper : list Question := [question1; question2; question5].

Definition datasetParams : SearchParams :=
  {| customExamKey := None; examSlug := Some "computer-science";
     year := Some "2023"; offlineTestKey := None; examBoard := Some "ap";
     examNameParam := Some "ECET CSE 2023" |}.

Definition fetchedPaper (qs : list Question) : Sources :=
  {| customQuestionsStr := None; customExamNameItem := None;
     offlineDataRaw := None; fetched := Some qs |}.

Definition session0 : state :=
  start "09:00:00" true true None datasetParams (fetchedPaper paper).

Definition emptyLoad : state :=
  start "09:00:00" true true None datasetParams (fetchedPaper []).

Definition submitted0 : state := handleSubmit "09:30:00" session0.

(** ** Sequences of answer operations *)

Inductive operation :=
| SelectAnswer (questionId : Z) (answer : string)
| ClearAnswer
| GoPrev
| GoNext.

(** An exception thrown by a handler leaves the cells as they were. *)
Definition perform (o : operation) (st : state) : state :=
  match o with
  | SelectAnswer questionId answer => handleAnswerSelect questionId answer st
  | ClearAnswer => default st (clearResponse st)
  | GoPrev => onClickPrev st
  | GoNext =>
      match questions st with
      | Some qs => onClickNext qs st
      | None => st
      end
  end.

Definition performAll (ops : list operation) (st : state) : state :=
  fold_left (λ s o, perform o s) ops st.

(** The id of [questions[currentQuestionIndex]]. *)
Definition currentId (st : state) : option Z :=
  match questions st with
  | Some qs => id <$> at_index qs (currentQuestionIndex st)
  | None => None
  end.

(** The question an operation writes to, and what it leaves there. *)
Definition target (o : operation) (st : state) : option Z :=
  match o with
  | SelectAnswer questionId _ => Some questionId
  | ClearAnswer => currentId st
  | _ => None
  end.

Definition outcome (o : operation) : option string :=
  match o with
  | SelectAnswer _ answer => Some answer
  | _ => None
  end.

(** The outcome of the last operation of [ops], run from [st], that writes
    to question [q]; [None] when no operation does. *)
Fixpoint lastOperation (q : Z) (ops : list operation) (st : state)
    : option (option string) :=
  match ops with
  | [] => None
  | o :: ops' =>
      match lastOperation q ops' (perform o st) with
      | Some r => Some r
      | None =>
          if bool_decide (target o st = Some q) then Some (outcome o)
          else None
      end
  end.

(** [v] is an option of a question of [qs] with id [q]. *)
Definition isOptionOf (qs : list Question) (q : Z) (v : string) : bool :=
  existsb (λ qu, (id qu =? q) && existsb (String.eqb v) (options qu)) qs.

Definition answersValid (qs : list Question) (a : gmap Z string) : Prop :=
  map_Forall (λ q v, isOptionOf qs q v = true) a.

Definition operationValid (qs : list Question) (o : operation) : bool :=
  match o with
  | SelectAnswer questionId answer => isOptionOf qs questionId answer
  | _ => true
  end.

(** ** Navigation *)

Inductive direction := Prev | Next.

Definition delta (d : direction) : Z :=
  match d with Prev => -1 | Next => 1 end.

Definition navigate (qs : list Question) (d : direction) (st : state)
    : state :=
  match d with
  | Prev => onClickPrev st
  | Next => onClickNext qs st
  end.

Definition navigates (qs : list Question) (ds : list direction)
    (st : state) : state :=
  fold_left (λ s d, navigate qs d s) ds st.

(** The specification's [clamp(x, lo, hi)]. *)
Definition clamp (x lo hi : Z) : Z := Z.max lo (Z.min x hi).

Definition inRange (qs : list Question) (i : Z) : Prop :=
  0 ≤ i < Z.of_nat (length qs).

Definition tabHidden : string := "You have switched to another tab or window".

Definition timeUp : effect :=
  Toast false "Time's Up!" "Your exam has been submitted automatically.".

(** One timestamp per second of the exam. *)
Definition examSeconds : list string :=
  replicate (Z.to_nat EXAM_DURATION) "tick".

Definition sampleOperations : list operation :=
  [SelectAnswer 1 "3"; SelectAnswer 2 "yes"; ClearAnswer; GoNext;
   SelectAnswer 1 "4"; ClearAnswer].

(** ** The clock display *)

(** [s.padStart(2, '0')]. *)
Definition padStart2 (s : string) : string :=
  match String.length s with
  | O => "00"
  | S O => "0" +:+ s
  | _ => s
  end.

(** [formatTime]: [/] followed by [Math.floor] is the floor quotient, [%]
    the remainder with the sign of the dividend. *)
Definition formatTime (seconds : Z) : string :=
  let h := padStart2 (showZ (seconds / 3600)) in
  let m := padStart2 (showZ (Z.rem seconds 3600 / 60)) in
  let s := padStart2 (showZ (Z.rem seconds 60)) in
  h +:+ ":" +:+ m +:+ ":" +:+ s.

(** The character of a decimal digit, and a number below 100 written with
    two of them. *)
Definition digit (d : Z) : Ascii.ascii :=
  Ascii.ascii_of_nat (48 + Z.to_nat d).

Definition twoDigits (n : Z) : string :=
  String (digit (n / 10)) (String (digit (n mod 10)) "").

(** ** Kinds of events *)



(** The time an event hands to [handleSubmit]. *)
Definition eventTime (ev : event) : option string :=
  match ev with
  | IntervalTick now | FullscreenChange _ now | VisibilityChange _ now
  | ConfirmSubmit now | ConfirmExit now => Some now
  | _ => None
  end.

(** The events that submit from a given state: the tick that finds at most
    one second left, the violation that reaches the threshold, and the
    confirm button of an open submit or exit dialog. *)
Definition triggersSubmit (ev : event) (st : state) : bool :=
  match ev with
  | IntervalTick _ => timer st && (timeLeft st <=? 1)
  | FullscreenChange false _ | VisibilityChange true _ =>
      listeners st && (MAX_VIOLATIONS <=? violationCount st + 1)
  | ConfirmSubmit _ => isSubmitDialogOpen st
  | ConfirmExit _ => isExitDialogOpen st
  | _ => false
  end.

(** A palette that only asks for positions of the paper. *)
Definition paletteInRange (qs : list Question) (ev : event) : bool :=
  match ev with
  | PaletteSetIndex i => (0 <=? i) && (i <? Z.of_nat (length qs))
  | _ => true
  end.

(** ** Query parameters *)

(** An empty parameter read as a missing one. *)
Definition dropEmpty (o : option string) : option string :=
  if truthy o then o else None.

Definition dropEmptyParams (p : SearchParams) : SearchParams :=
  {| customExamKey := dropEmpty (customExamKey p);
     examSlug := dropEmpty (examSlug p);
     year := dropEmpty (year p);
     offlineTestKey := dropEmpty (offlineTestKey p);
     examBoard := dropEmpty (examBoard p);
     examNameParam := dropEmpty (examNameParam p) |}.

(** Where a failed load sends the user. *)
Definition failureRedirect (p : SearchParams) : string :=
  if negb (truthy (customExamKey p)) && truthy (offlineTestKey p)
  then "/exams/offline" else "/exams".

Definition isRouterPush (path : string) (e : effect) : bool :=
  match e with
  | RouterPush path' => String.eqb path path'
  | _ => false
  end.

Definition isErrorToast (e : effect) : bool :=
  match e with
  | Toast true _ _ => true
  | _ => false
  end.



(** ** Further example inputs *)

Definition offlineParams : SearchParams :=
  {| customExamKey := None; examSlug := None; year := None;
     offlineTestKey := Some "offline-7"; examBoard := None;
     examNameParam := None |}.

Definition nothingStored : Sources :=
  {| customQuestionsStr := None; customExamNameItem := None;
     offlineDataRaw := None; fetched := None |}.

Definition violationMix : list event :=
  [VisibilityChange true "09:01:00"; AcknowledgeViolation;
   FullscreenChange true "09:02:00"; VisibilityChange false "09:03:00";
   FullscreenChange false "09:04:00"; ConfirmExit "09:05:00";
   IntervalTick "09:06:00"; VisibilityChange true "09:07:00";
   FullscreenChange false "09:08:00"].

(** A session with the submit dialog open on two answered questions. *)
Definition answeredSession : state :=
  run [RadioValueChange "4"; ClickNext; RadioValueChange "yes";
       SetSubmitDialog true] session0.

(** ** What the exam screen shows *)

(** [questions[currentQuestionIndex]]. *)
Definition currentQuestion (st : state) : option Question :=
  match questions st with
  | Some qs => at_index qs (currentQuestionIndex st)
  | None => None
  end.

(** The value given to the radio group: [answers[currentQuestion.id] || '']. *)
Definition radioValue (st : state) : option string :=
  (λ q, default "" (answers st !! id q)) <$> currentQuestion st.

(** [isMarked], which chooses between "Unmark" and "Mark for Review". *)
Definition isMarked (st : state) : option bool :=
  (λ q, includes (markedForReview st) (id q)) <$> currentQuestion st.

(** The events that write to the answers, and the one that writes to the
    review marks. *)
Definition isAnswerEvent (ev : event) : bool :=
  match ev with
  | RadioValueChange _ | ClickClearResponse => true
  | _ => false
  end.

Definition isMarkEvent (ev : event) : bool :=
  match ev with
  | ClickMarkForReview => true
  | _ => false
  end.

(** * Properties *)

(** ** Counting effects *)

Ltac count_effects :=
  unfold snapshotWrites, resultsNavigations, navigations, count; simpl;
  rewrite ?List.filter_app, ?length_app; simpl; try lia.

Lemma count_app (p : effect → bool) (l1 l2 : list effect) :
  count p (l1 ++ l2) = (count p l1 + count p l2)%nat.
Proof. unfold count. by rewrite List.filter_app, length_app. Qed.

Lemma count_emit (p : effect → bool) (e : effect) (st : state) :
  count p (effects (emit e st)) =
  (count p (effects st) + (if p e then 1 else 0))%nat.
Proof.
  unfold emit. simpl. rewrite count_app. unfold count at 2. simpl.
  by destruct (p e).
Qed.

(** ** The latch *)

Lemma handleSubmit_latched (now : string) (st : state) :
  isSubmitting st = true → handleSubmit now st = st.
Proof. intros H. unfold handleSubmit. by rewrite H. Qed.

Lemma handleSubmit_sets_latch (now : string) (st : state) :
  isSubmitting (handleSubmit now st) = true.
Proof.
  destruct st as [qs ? ? ? ? ? ? ? latch ? ? ? ? fs ? ? ? ? ?].
  unfold handleSubmit. simpl. destruct latch; [done|].
  simpl. by destruct fs, qs.
Qed.

Lemma submits_latched (nows : list string) (st : state) :
  isSubmitting st = true → submits nows st = st.
Proof.
  intros H. induction nows as [|now nows IH]; [done|].
  unfold submits in *. simpl. by rewrite handleSubmit_latched.
Qed.

Lemma dispatch_after_submit (ev : event) (st : state) :
  isSubmitting st = true → settled st (dispatch ev st).
Proof.
  destruct st as [qs ? ? ? ? ? ? ? latch ? ? ? ? fs ? ? ? ? ?].
  simpl. intros ->.
  destruct ev; unfold settled, dispatch, click, tick, handleFullscreenChange,
    handleVisibilityChange, handleViolation, clearResponse,
    acknowledgeViolation, requestFullscreen, handleSubmit;
    simpl; repeat case_match; simplify_eq/=; repeat split; count_effects.
Qed.

Lemma settled_refl (st : state) : isSubmitting st = true → settled st st.
Proof. by unfold settled. Qed.

Lemma settled_trans (st1 st2 st3 : state) :
  settled st1 st2 → settled st2 st3 → settled st1 st3.
Proof. unfold settled. intros (?&?&?&?&?) (?&?&?&?&?). repeat split; congruence. Qed.

Lemma run_after_submit (evs : list event) (st : state) :
  isSubmitting st = true → settled st (run evs st).
Proof.
  revert st. induction evs as [|ev evs IH]; intros st H.
  - by apply settled_refl.
  - change (run (ev :: evs) st) with (run evs (dispatch ev st)).
    pose proof (dispatch_after_submit ev st H) as Hd.
    eapply settled_trans; [exact Hd|]. apply IH. by destruct Hd.
Qed.

(** ** Submission *)

Lemma handleSubmit_first (now : string) (st : state) (qs : list Question) :
  isSubmitting st = false → questions st = Some qs →
  lastExamData (handleSubmit now st) = Some (snapshot now qs st) ∧
  snapshotWrites (handleSubmit now st) = S (snapshotWrites st) ∧
  resultsNavigations (handleSubmit now st) = S (resultsNavigations st).
Proof.
  destruct st as [oqs ? ? ? ? ? ? ? latch ? ? ? ? fs ? ? ? ? ?].
  simpl. intros -> ->. unfold handleSubmit. simpl.
  destruct fs; simpl; repeat split; count_effects.
Qed.

(** One event in an unsubmitted session either submits, with one snapshot
    and one navigation, or submits nothing. *)
Lemma dispatch_submits_at_most_once
    (ev : event) (st : state) (qs : list Question) :
  questions st = Some qs → isSubmitting st = false →
  questions (dispatch ev st) = Some qs ∧
  snapshotWrites (dispatch ev st)
    = (snapshotWrites st + if isSubmitting (dispatch ev st) then 1 else 0)%nat ∧
  resultsNavigations (dispatch ev st)
    = (resultsNavigations st
       + if isSubmitting (dispatch ev st) then 1 else 0)%nat.
Proof.
  destruct st as [oqs ? ? ? ? ? ? ? latch ? ? ? ? fs ? ? ? ? ?].
  simpl. intros -> ->.
  destruct ev; unfold dispatch, click, tick, handleFullscreenChange,
    handleVisibilityChange, handleViolation, clearResponse,
    acknowledgeViolation, requestFullscreen, handleSubmit;
    simpl; repeat case_match; simplify_eq/=; repeat split; count_effects.
Qed.

Lemma run_submits_at_most_once
    (evs : list event) (st : state) (qs : list Question) :
  questions st = Some qs → isSubmitting st = false →
  snapshotWrites (run evs st)
    = (snapshotWrites st + if isSubmitting (run evs st) then 1 else 0)%nat ∧
  resultsNavigations (run evs st)
    = (resultsNavigations st
       + if isSubmitting (run evs st) then 1 else 0)%nat.
Proof.
  revert st. induction evs as [|ev evs IH]; intros st Hqs Hlatch.
  - simpl. rewrite Hlatch. lia.
  - change (run (ev :: evs) st) with (run evs (dispatch ev st)).
    destruct (dispatch_submits_at_most_once ev st qs Hqs Hlatch)
      as (Hqs' & Hw & Hn).
    destruct (isSubmitting (dispatch ev st)) eqn:E.
    + destruct (run_after_submit evs (dispatch ev st) E)
        as (-> & _ & -> & -> & _). lia.
    + destruct (IH (dispatch ev st) Hqs' E) as [-> ->]. lia.
Qed.

(** C1. [handleSubmit] is idempotent.  In a session (questions loaded)
    whose latch is not yet set, the first call sets the latch, writes one
    result snapshot and schedules one navigation to the results; any
    further calls, whatever their number, return the state unchanged; and
    whatever events follow, through whichever caller (timer, violation,
    dialogs), no further snapshot is written and no further navigation is
    scheduled.  Likewise any sequence of events from the unsubmitted session,
    however many of them call [handleSubmit], ends with exactly one snapshot
    and one navigation if it submitted and none otherwise. *)
Theorem handleSubmit_idempotent
    (st : state) (qs : list Question) (now : string) (later : list string) :
  isSubmitting st = false → questions st = Some qs →
  let st1 := handleSubmit now st in
  isSubmitting st1 = true ∧
  lastExamData st1 = Some (snapshot now qs st) ∧
  snapshotWrites st1 = S (snapshotWrites st) ∧
  resultsNavigations st1 = S (resultsNavigations st) ∧
  submits later st1 = st1 ∧
  submits (now :: later) st = st1 ∧
  ∀ evs : list event,
    (isSubmitting (run evs st1) = true ∧
     lastExamData (run evs st1) = lastExamData st1 ∧
     snapshotWrites (run evs st1) = snapshotWrites st1 ∧
     resultsNavigations (run evs st1) = resultsNavigations st1) ∧
    snapshotWrites (run evs st)
      = (snapshotWrites st + if isSubmitting (run evs st) then 1 else 0)%nat ∧
    resultsNavigations (run evs st)
      = (resultsNavigations st
         + if isSubmitting (run evs st) then 1 else 0)%nat.
Proof.
  intros Hlatch Hqs st1.
  pose proof (handleSubmit_sets_latch now st) as Hset.
  destruct (handleSubmit_first now st qs Hlatch Hqs) as (Hslot & Hw & Hn).
  repeat split; try done.
  - by apply submits_latched.
  - change (submits (now :: later) st) with (submits later st1).
    by apply submits_latched.
  - by destruct (run_after_submit evs st1 Hset).
  - by destruct (run_after_submit evs st1 Hset) as (_&?&_).
  - by destruct (run_after_submit evs st1 Hset) as (_&_&?&_).
  - by destruct (run_after_submit evs st1 Hset) as (_&_&_&?&_).
  - by destruct (run_submits_at_most_once evs st qs Hqs Hlatch).
  - by destruct (run_submits_at_most_once evs st qs Hqs Hlatch).
Qed.

Lemma handleSubmit_idempotent_witness :
  let st1 := handleSubmit "09:30:00" session0 in
  isSubmitting st1 = true ∧
  lastExamData st1 = Some (snapshot "09:30:00" paper session0) ∧
  snapshotWrites st1 = S (snapshotWrites session0) ∧
  resultsNavigations st1 = S (resultsNavigations session0) ∧
  submits ["09:30:01"; "09:30:02"] st1 = st1 ∧
  submits ["09:30:00"; "09:30:01"; "09:30:02"] session0 = st1 ∧
  ∀ evs : list event,
    (isSubmitting (run evs st1) = true ∧
     lastExamData (run evs st1) = lastExamData st1 ∧
     snapshotWrites (run evs st1) = snapshotWrites st1 ∧
     resultsNavigations (run evs st1) = resultsNavigations st1) ∧
    snapshotWrites (run evs session0)
      = (snapshotWrites session0
         + if isSubmitting (run evs session0) then 1 else 0)%nat ∧
    resultsNavigations (run evs session0)
      = (resultsNavigations session0
         + if isSubmitting (run evs session0) then 1 else 0)%nat.
Proof.
  apply (handleSubmit_idempotent session0 paper "09:30:00"
           ["09:30:01"; "09:30:02"]); reflexivity.
Defined.

(** ** Mutators after submission *)

Lemma includes_spec (l : list Z) (x : Z) : includes l x = true ↔ x ∈ l.
Proof.
  unfold includes. rewrite existsb_exists. split.
  - intros (y & Hy & E). apply Z.eqb_eq in E. subst. by apply list_elem_of_In.
  - intros H. exists x. split; [by apply list_elem_of_In | apply Z.eqb_refl].
Qed.

(** C2, as the code has it.  The mutators do not look at the latch: after
    submission [handleAnswerSelect], [clearResponse], [handleMarkForReview]
    and the Prev/Next handlers update [answers], [markedForReview] and
    [currentQuestionIndex] as they do before it; what they leave unchanged
    is the latch, the result snapshot already written and the list of
    requested effects. *)
Theorem mutators_after_submit
    (st : state) (qs : list Question) (cur : Question)
    (questionId : Z) (answer : string) :
  isSubmitting st = true → questions st = Some qs →
  at_index qs (currentQuestionIndex st) = Some cur →
  answers (handleAnswerSelect questionId answer st)
    = <[questionId := answer]> (answers st) ∧
  (answers <$> clearResponse st) = Some (delete (id cur) (answers st)) ∧
  (questionId ∈ markedForReview (handleMarkForReview questionId st)
     ↔ questionId ∉ markedForReview st) ∧
  currentQuestionIndex (onClickPrev st)
    = Z.max 0 (currentQuestionIndex st - 1) ∧
  currentQuestionIndex (onClickNext qs st)
    = Z.min (Z.of_nat (length qs) - 1) (currentQuestionIndex st + 1) ∧
  ∀ st', st' = handleAnswerSelect questionId answer st
        ∨ clearResponse st = Some st'
        ∨ st' = handleMarkForReview questionId st
        ∨ st' = onClickPrev st ∨ st' = onClickNext qs st →
    isSubmitting st' = true ∧ lastExamData st' = lastExamData st ∧
    effects st' = effects st.
Proof.
  intros Hlatch Hqs Hcur. repeat split.
  - unfold clearResponse. by rewrite Hqs, Hcur.
  - unfold handleMarkForReview. simpl.
    destruct (includes (markedForReview st) questionId) eqn:E.
    + intros Hin. apply list_elem_of_filter in Hin. by destruct Hin.
    + intros _ Hin. apply includes_spec in Hin. congruence.
  - unfold handleMarkForReview. simpl.
    destruct (includes (markedForReview st) questionId) eqn:E.
    + intros Hnin. apply includes_spec in E. done.
    + intros _. apply elem_of_app. right. by apply list_elem_of_singleton.
  - destruct H as [->|[H|[->|[->| ->]]]]; try done.
    unfold clearResponse in H. rewrite Hqs, Hcur in H. by simplify_eq.
  - destruct H as [->|[H|[->|[->| ->]]]]; try done.
    unfold clearResponse in H. rewrite Hqs, Hcur in H. by simplify_eq.
  - destruct H as [->|[H|[->|[->| ->]]]]; try done.
    unfold clearResponse in H. rewrite Hqs, Hcur in H. by simplify_eq.
Qed.

Lemma mutators_after_submit_witness :
  answers (handleAnswerSelect 2 "yes" submitted0)
    = <[2 := "yes"]> (answers submitted0) ∧
  (answers <$> clearResponse submitted0)
    = Some (delete (id question1) (answers submitted0)) ∧
  (2 ∈ markedForReview (handleMarkForReview 2 submitted0)
     ↔ 2 ∉ markedForReview submitted0) ∧
  currentQuestionIndex (onClickPrev submitted0)
    = Z.max 0 (currentQuestionIndex submitted0 - 1) ∧
  currentQuestionIndex (onClickNext paper submitted0)
    = Z.min (Z.of_nat (length paper) - 1)
        (currentQuestionIndex submitted0 + 1) ∧
  ∀ st', st' = handleAnswerSelect 2 "yes" submitted0
        ∨ clearResponse submitted0 = Some st'
        ∨ st' = handleMarkForReview 2 submitted0
        ∨ st' = onClickPrev submitted0 ∨ st' = onClickNext paper submitted0 →
    isSubmitting st' = true ∧ lastExamData st' = lastExamData submitted0 ∧
    effects st' = effects submitted0.
Proof.
  apply (mutators_after_submit submitted0 paper question1 2 "yes");
    reflexivity.
Defined.

(** C2 fails as stated: in the submitted session [submitted0] selecting an
    answer, marking a question and pressing Next all change the cells, and
    the radio group still reaches [handleAnswerSelect]. *)
Lemma mutators_change_state_after_submit :
  isSubmitting submitted0 = true ∧
  answers submitted0 !! 1 = None ∧
  answers (handleAnswerSelect 1 "4" submitted0) !! 1 = Some "4" ∧
  answers (dispatch (RadioValueChange "4") submitted0) !! 1 = Some "4" ∧
  markedForReview submitted0 = [] ∧
  markedForReview (handleMarkForReview 1 submitted0) = [1] ∧
  currentQuestionIndex submitted0 = 0 ∧
  currentQuestionIndex (onClickNext paper submitted0) = 1.
Proof. repeat split; vm_compute; reflexivity. Qed.

(** ** Violations *)

Lemma handleViolation_count (now message : string) (st : state) :
  violationCount (handleViolation now message st) = violationCount st + 1.
Proof.
  destruct st as [qs ? ? ? ? ? ? ? latch ? vc ? ? fs ? ? ? ? ?].
  unfold handleViolation, handleSubmit. simpl.
  destruct (MAX_VIOLATIONS <=? vc + 1); simpl; [|done].
  by destruct latch, fs, qs.
Qed.

Lemma handleViolation_below (now message : string) (st : state) :
  violationCount st + 1 < MAX_VIOLATIONS →
  handleViolation now message st =
  setIsViolationDialogOpen true
    (setViolationMessage (warningMessage message (violationCount st + 1))
       (setViolationCount (violationCount st + 1) st)).
Proof.
  intros H. unfold handleViolation. simpl.
  destruct (Z.leb_spec MAX_VIOLATIONS (violationCount st + 1)); [lia|done].
Qed.

Lemma handleViolation_reached (now message : string) (st : state) :
  MAX_VIOLATIONS ≤ violationCount st + 1 →
  handleViolation now message st =
  handleSubmit now
    (emit (Toast true "Exam Terminated" terminatedDescription)
       (setViolationCount (violationCount st + 1) st)).
Proof.
  intros H. unfold handleViolation. simpl.
  destruct (Z.leb_spec MAX_VIOLATIONS (violationCount st + 1)); [done|lia].
Qed.

(** C3, as the code has it.  [handleViolation] does not look at the latch:
    a violation arriving after submission still increments the count and,
    below the threshold, opens the warning dialog with its message; at the
    threshold it calls [handleSubmit], which the latch turns into a no-op.
    In both cases no snapshot is written and no navigation is scheduled. *)
Theorem handleViolation_after_submit
    (st : state) (now message : string) :
  isSubmitting st = true →
  let st' := handleViolation now message st in
  violationCount st' = violationCount st + 1 ∧
  (violationCount st + 1 < MAX_VIOLATIONS →
     isViolationDialogOpen st' = true ∧
     violationMessage st'
       = warningMessage message (violationCount st + 1) ∧
     effects st' = effects st) ∧
  (MAX_VIOLATIONS ≤ violationCount st + 1 →
     isViolationDialogOpen st' = isViolationDialogOpen st ∧
     violationMessage st' = violationMessage st) ∧
  settled st st'.
Proof.
  intros Hlatch st'. subst st'. split; [apply handleViolation_count|].
  split; [|split].
  - intros Hlt. by rewrite handleViolation_below.
  - intros Hge. rewrite handleViolation_reached by done.
    by rewrite handleSubmit_latched.
  - destruct (Z.lt_ge_cases (violationCount st + 1) MAX_VIOLATIONS).
    + rewrite handleViolation_below by done. by unfold settled.
    + rewrite handleViolation_reached by lia.
      rewrite handleSubmit_latched by done.
      unfold settled. repeat split; try done;
        unfold snapshotWrites, resultsNavigations, navigations;
        rewrite count_emit; simpl; lia.
Qed.

Lemma handleViolation_after_submit_witness :
  let st' := handleViolation "09:30:01" "You have exited fullscreen mode"
               submitted0 in
  violationCount st' = violationCount submitted0 + 1 ∧
  (isViolationDialogOpen st' = true ∧
   violationMessage st'
     = warningMessage "You have exited fullscreen mode"
         (violationCount submitted0 + 1) ∧
   effects st' = effects submitted0) ∧
  (MAX_VIOLATIONS ≤ violationCount submitted0 + 1 →
     isViolationDialogOpen st' = isViolationDialogOpen submitted0 ∧
     violationMessage st' = violationMessage submitted0) ∧
  settled submitted0 st'.
Proof.
  destruct (handleViolation_after_submit submitted0 "09:30:01"
              "You have exited fullscreen mode" eq_refl)
    as (Hcount & Hbelow & Hreached & Hsettled).
  split; [exact Hcount|]. split; [apply Hbelow; reflexivity|].
  split; [exact Hreached | exact Hsettled].
Defined.

(** C3 fails as stated: in the submitted session [submitted0], whose count
    is 0 and whose dialog is closed, a hidden tab, or the fullscreen exit
    that [handleSubmit] itself requested, raises the count to 1 and opens
    the warning dialog. *)
Lemma violation_counted_after_submit :
  isSubmitting submitted0 = true ∧
  violationCount submitted0 = 0 ∧
  isViolationDialogOpen submitted0 = false ∧
  violationCount (dispatch (VisibilityChange true "09:30:01") submitted0) = 1 ∧
  isViolationDialogOpen
    (dispatch (VisibilityChange true "09:30:01") submitted0) = true ∧
  violationCount (dispatch (FullscreenChange false "09:30:01") submitted0) = 1 ∧
  isViolationDialogOpen
    (dispatch (FullscreenChange false "09:30:01") submitted0) = true ∧
  violationMessage (dispatch (FullscreenChange false "09:30:01") submitted0)
    = "You have exited fullscreen mode. You have 2 warning(s) left.".
Proof. repeat split; vm_compute; reflexivity. Qed.

Lemma handleSubmit_keeps (now : string) (st : state) :
  let st' := handleSubmit now st in
  violationCount st' = violationCount st ∧
  isViolationDialogOpen st' = isViolationDialogOpen st ∧
  violationMessage st' = violationMessage st ∧
  questions st' = questions st ∧ listeners st' = listeners st ∧
  timer st' = timer st ∧ timeLeft st' = timeLeft st ∧
  answers st' = answers st ∧ markedForReview st' = markedForReview st ∧
  currentQuestionIndex st' = currentQuestionIndex st.
Proof.
  destruct st as [qs ? ? ? ? ? ? ? latch ? ? ? ? fs ? ? ? ? ?].
  unfold handleSubmit. simpl. destruct latch; [done|].
  simpl. by destruct fs, qs.
Qed.

Lemma violation_warns (now message : string) (st : state) :
  violationCount st + 1 < MAX_VIOLATIONS →
  let st' := handleViolation now message st in
  violationCount st' = violationCount st + 1 ∧
  isViolationDialogOpen st' = true ∧
  violationMessage st' = warningMessage message (violationCount st + 1) ∧
  isSubmitting st' = isSubmitting st ∧ questions st' = questions st ∧
  listeners st' = listeners st ∧ effects st' = effects st.
Proof. intros H. simpl. by rewrite handleViolation_below. Qed.

Lemma violation_terminates
    (now message : string) (st : state) (qs : list Question) :
  MAX_VIOLATIONS ≤ violationCount st + 1 →
  isSubmitting st = false → questions st = Some qs →
  let st' := handleViolation now message st in
  violationCount st' = violationCount st + 1 ∧
  isSubmitting st' = true ∧
  snapshotWrites st' = S (snapshotWrites st) ∧
  resultsNavigations st' = S (resultsNavigations st) ∧
  isViolationDialogOpen st' = isViolationDialogOpen st ∧
  violationMessage st' = violationMessage st.
Proof.
  intros Hge Hlatch Hqs. simpl. split; [apply handleViolation_count|].
  rewrite handleViolation_reached by done.
  set (st1 := emit _ _).
  split; [apply handleSubmit_sets_latch|].
  destruct (handleSubmit_first now st1 qs) as (_ & Hw & Hn); [done..|].
  destruct (handleSubmit_keeps now st1) as (_ & Hd & Hm & _).
  rewrite Hw, Hn, Hd, Hm. unfold snapshotWrites, resultsNavigations.
  subst st1. rewrite !count_emit. simpl. repeat split; lia.
Qed.

Lemma acknowledgeViolation_keeps (st : state) :
  let st' := acknowledgeViolation st in
  isViolationDialogOpen st' = false ∧
  violationCount st' = violationCount st ∧
  violationMessage st' = violationMessage st ∧
  isSubmitting st' = isSubmitting st ∧ questions st' = questions st ∧
  listeners st' = listeners st ∧
  snapshotWrites st' = snapshotWrites st ∧
  resultsNavigations st' = resultsNavigations st.
Proof.
  simpl. unfold acknowledgeViolation, requestFullscreen,
    snapshotWrites, resultsNavigations. simpl.
  destruct (canRequestFullscreen st); [|done].
  rewrite !count_emit. simpl. repeat split; lia.
Qed.

Lemma dispatch_tabHidden (now : string) (st : state) :
  listeners st = true →
  dispatch (VisibilityChange true now) st = handleViolation now tabHidden st.
Proof. intros H. simpl. by rewrite H. Qed.

(** C5. On a violation in an unsubmitted session the count is incremented;
    when it has reached [MAX_VIOLATIONS] the submission protocol runs (one
    snapshot, one navigation) and neither the dialog flag nor the message
    is touched; otherwise the warning dialog opens with the message
    "<cause>. You have <MAX_VIOLATIONS - count> warning(s) left." and
    nothing is submitted.  Three hidden-tab events in a row from a count of
    0, each warning acknowledged, give "2 warning(s) left", then
    "1 warning(s) left", then the submission without a third dialog. *)
Theorem handleViolation_policy
    (st : state) (qs : list Question) (now message t1 t2 t3 : string) :
  isSubmitting st = false → questions st = Some qs → listeners st = true →
  let c := violationCount st + 1 in
  let st' := handleViolation now message st in
  (violationCount st' = c ∧
   (MAX_VIOLATIONS ≤ c →
      isSubmitting st' = true ∧
      snapshotWrites st' = S (snapshotWrites st) ∧
      resultsNavigations st' = S (resultsNavigations st) ∧
      isViolationDialogOpen st' = isViolationDialogOpen st ∧
      violationMessage st' = violationMessage st) ∧
   (c < MAX_VIOLATIONS →
      isViolationDialogOpen st' = true ∧
      violationMessage st' =
        message +:+ ". You have " +:+ showZ (MAX_VIOLATIONS - c) +:+
        " warning(s) left." ∧
      isSubmitting st' = false ∧ effects st' = effects st)) ∧
  (violationCount st = 0 →
   let s1 := dispatch (VisibilityChange true t1) st in
   let s2 := dispatch (VisibilityChange true t2) (acknowledgeViolation s1) in
   let s3 := dispatch (VisibilityChange true t3) (acknowledgeViolation s2) in
   isViolationDialogOpen s1 = true ∧ isSubmitting s1 = false ∧
   violationMessage s1 = tabHidden +:+ ". You have 2 warning(s) left." ∧
   isViolationDialogOpen s2 = true ∧ isSubmitting s2 = false ∧
   violationMessage s2 = tabHidden +:+ ". You have 1 warning(s) left." ∧
   violationCount s3 = MAX_VIOLATIONS ∧ isSubmitting s3 = true ∧
   isViolationDialogOpen s3 = false ∧
   violationMessage s3 = violationMessage s2 ∧
   snapshotWrites s3 = S (snapshotWrites st) ∧
   resultsNavigations s3 = S (resultsNavigations st)).
Proof.
  intros Hlatch Hqs Hlis c st'. subst c st'. split.
  - split; [apply handleViolation_count|]. split.
    + intros Hge.
      by destruct (violation_terminates now message st qs Hge Hlatch Hqs)
        as (_ & ?).
    + intros Hlt.
      destruct (violation_warns now message st Hlt)
        as (_ & Hd & Hm & Hs & _ & _ & He).
      rewrite Hd, Hm, Hs, He. done.
  - intros Hzero s1.
    subst s1. rewrite (dispatch_tabHidden t1 st) by done.
    destruct (violation_warns t1 tabHidden st)
      as (Hc1 & Hd1 & Hm1 & Hs1 & Hq1 & Hl1 & He1); [rewrite Hzero; done|].
    set (s1 := handleViolation t1 tabHidden st) in *.
    destruct (acknowledgeViolation_keeps s1)
      as (Hda & Hca & Hma & Hsa & Hqa & Hla & Hwa & Hna).
    set (a1 := acknowledgeViolation s1) in *.
    intros s2. subst s2. rewrite (dispatch_tabHidden t2 a1) by congruence.
    destruct (violation_warns t2 tabHidden a1)
      as (Hc2 & Hd2 & Hm2 & Hs2 & Hq2 & Hl2 & He2);
      [rewrite Hca, Hc1, Hzero; done|].
    set (s2 := handleViolation t2 tabHidden a1) in *.
    destruct (acknowledgeViolation_keeps s2)
      as (Hdb & Hcb & Hmb & Hsb & Hqb & Hlb & Hwb & Hnb).
    set (a2 := acknowledgeViolation s2) in *.
    intros s3. subst s3. rewrite (dispatch_tabHidden t3 a2) by congruence.
    destruct (violation_terminates t3 tabHidden a2 qs)
      as (Hc3 & Hs3 & Hw3 & Hn3 & Hd3 & Hm3);
      [rewrite Hcb, Hc2, Hca, Hc1, Hzero; done | congruence | congruence |].
    set (s3 := handleViolation t3 tabHidden a2) in *.
    repeat split.
    + done.
    + congruence.
    + rewrite Hm1, Hzero. done.
    + done.
    + congruence.
    + rewrite Hm2, Hca, Hc1, Hzero. done.
    + rewrite Hc3, Hcb, Hc2, Hca, Hc1, Hzero. done.
    + done.
    + congruence.
    + congruence.
    + rewrite Hw3, Hwb. unfold snapshotWrites at 1. rewrite He2.
      fold (snapshotWrites a1). rewrite Hwa. unfold snapshotWrites.
      by rewrite He1.
    + rewrite Hn3, Hnb. unfold resultsNavigations at 1. rewrite He2.
      fold (resultsNavigations a1). rewrite Hna. unfold resultsNavigations.
      by rewrite He1.
Qed.

Lemma handleViolation_policy_witness :
  let st := session0 in
  let c := violationCount st + 1 in
  let st' := handleViolation "09:10:00" "You have exited fullscreen mode" st in
  (violationCount st' = c ∧
   (MAX_VIOLATIONS ≤ c →
      isSubmitting st' = true ∧
      snapshotWrites st' = S (snapshotWrites st) ∧
      resultsNavigations st' = S (resultsNavigations st) ∧
      isViolationDialogOpen st' = isViolationDialogOpen st ∧
      violationMessage st' = violationMessage st) ∧
   (isViolationDialogOpen st' = true ∧
    violationMessage st' =
      "You have exited fullscreen mode. You have 2 warning(s) left." ∧
    isSubmitting st' = false ∧ effects st' = effects st)) ∧
  (let s1 := dispatch (VisibilityChange true "09:11:00") st in
   let s2 :=
     dispatch (VisibilityChange true "09:12:00") (acknowledgeViolation s1) in
   let s3 :=
     dispatch (VisibilityChange true "09:13:00") (acknowledgeViolation s2) in
   isViolationDialogOpen s1 = true ∧ isSubmitting s1 = false ∧
   violationMessage s1 = tabHidden +:+ ". You have 2 warning(s) left." ∧
   isViolationDialogOpen s2 = true ∧ isSubmitting s2 = false ∧
   violationMessage s2 = tabHidden +:+ ". You have 1 warning(s) left." ∧
   violationCount s3 = MAX_VIOLATIONS ∧ isSubmitting s3 = true ∧
   isViolationDialogOpen s3 = false ∧
   violationMessage s3 = violationMessage s2 ∧
   snapshotWrites s3 = S (snapshotWrites st) ∧
   resultsNavigations s3 = S (resultsNavigations st)).
Proof.
  destruct (handleViolation_policy session0 paper "09:10:00"
              "You have exited fullscreen mode"
              "09:11:00" "09:12:00" "09:13:00" eq_refl eq_refl eq_refl)
    as [(Hcount & Hreached & Hbelow) Hscenario].
  split; [|exact (Hscenario eq_refl)].
  split; [exact Hcount|]. split; [exact Hreached|].
  apply Hbelow. reflexivity.
Defined.

(** ** The timer *)

Lemma tick_running (now : string) (st : state) :
  1 < timeLeft st → tick now st = setTimeLeft (timeLeft st - 1) st.
Proof.
  intros H. unfold tick.
  destruct (Z.leb_spec (timeLeft st) 1); [lia|done].
Qed.

Lemma tick_expiring (now : string) (st : state) :
  timeLeft st ≤ 1 →
  tick now st = setTimeLeft 0 (handleSubmit now (emit timeUp (setTimer false st))).
Proof.
  intros H. unfold tick.
  destruct (Z.leb_spec (timeLeft st) 1); [done|lia].
Qed.

Lemma ticks_snoc (nows : list string) (now : string) (st : state) :
  ticks (nows ++ [now]) st = tick now (ticks nows st).
Proof. unfold ticks. by rewrite fold_left_app. Qed.

Lemma ticks_app (nows more : list string) (st : state) :
  ticks (nows ++ more) st = ticks more (ticks nows st).
Proof. unfold ticks. by rewrite fold_left_app. Qed.

(** While more than [length nows] seconds remain the ticks only count. *)
Lemma ticks_running (nows : list string) (st : state) :
  Z.of_nat (length nows) < timeLeft st →
  let st' := ticks nows st in
  timeLeft st' = timeLeft st - Z.of_nat (length nows) ∧
  isSubmitting st' = isSubmitting st ∧ questions st' = questions st ∧
  effects st' = effects st ∧ timer st' = timer st.
Proof.
  revert st. induction nows as [|now nows IH]; intros st H.
  - simpl. repeat split. lia.
  - change (ticks (now :: nows) st) with (ticks nows (tick now st)).
    simpl length in *. rewrite tick_running in * by lia.
    destruct (IH (setTimeLeft (timeLeft st - 1) st)) as (Ht & Hs & Hq & He & Hi);
      [simpl; lia|].
    simpl in *. repeat split; try done. lia.
Qed.

(** Once submitted and at 0, further ticks change neither. *)
Lemma ticks_expired (nows : list string) (st : state) :
  isSubmitting st = true → timeLeft st = 0 →
  let st' := ticks nows st in
  timeLeft st' = 0 ∧ isSubmitting st' = true ∧
  snapshotWrites st' = snapshotWrites st ∧
  resultsNavigations st' = resultsNavigations st.
Proof.
  revert st. induction nows as [|now nows IH]; intros st Hs Ht; [done|].
  change (ticks (now :: nows) st) with (ticks nows (tick now st)).
  assert (tick now st = setTimeLeft 0 (emit timeUp (setTimer false st)))
    as Heq.
  { rewrite tick_expiring by lia. by rewrite handleSubmit_latched. }
  destruct (IH (tick now st)) as (Ht' & Hs' & Hw & Hn);
    [by rewrite Heq.. |].
  simpl. rewrite Ht', Hs', Hw, Hn, Heq.
  unfold snapshotWrites, resultsNavigations. simpl.
  rewrite !count_app. simpl. repeat split; first [done | lia].
Qed.

Lemma run_ticks_running (nows : list string) (st : state) :
  timer st = true → Z.of_nat (length nows) < timeLeft st →
  run (IntervalTick <$> nows) st = ticks nows st.
Proof.
  revert st. induction nows as [|now nows IH]; intros st Hi H; [done|].
  change (run (IntervalTick <$> now :: nows) st)
    with (run (IntervalTick <$> nows) (dispatch (IntervalTick now) st)).
  change (ticks (now :: nows) st) with (ticks nows (tick now st)).
  simpl dispatch. rewrite Hi. simpl length in H.
  apply IH; rewrite tick_running by lia; simpl; [done|lia].
Qed.

Lemma start_timeLeft now fullscreen can stored p src :
  timeLeft (start now fullscreen can stored p src) = EXAM_DURATION.
Proof.
  unfold start, rerunExamEffect, examEffect, cleanupExamEffect,
    loadQuestions, resolveQuestions.
  simpl. repeat case_match; simplify_eq/=; done.
Qed.

(** C6. [timeLeft] starts at [EXAM_DURATION] = 7200.  A tick never makes it
    negative, lowers it by exactly 1 while it is at least 1, and leaves it
    at 0 once there.  In a session that starts at 7200 unsubmitted, after
    [k < 7200] ticks [7200 - k] seconds remain and nothing is submitted;
    after 7200 ticks it is 0 and exactly one submission has occurred (one
    snapshot, one navigation), the interval is cleared, and any further
    ticks leave it at 0 without another submission. *)
Theorem timer_countdown
    (st : state) (qs : list Question) (nows : list string) :
  isSubmitting st = false → questions st = Some qs →
  timeLeft st = EXAM_DURATION →
  Z.of_nat (length nows) = EXAM_DURATION →
  EXAM_DURATION = 7200 ∧
  (∀ now fullscreen can stored p src,
     timeLeft (start now fullscreen can stored p src) = EXAM_DURATION) ∧
  (∀ now s, 0 ≤ timeLeft s → 0 ≤ timeLeft (tick now s)) ∧
  (∀ now s, 1 ≤ timeLeft s → timeLeft (tick now s) = timeLeft s - 1) ∧
  (∀ now s, timeLeft s = 0 → timeLeft (tick now s) = 0) ∧
  (∀ k : nat, Z.of_nat k < EXAM_DURATION →
     timeLeft (ticks (take k nows) st) = EXAM_DURATION - Z.of_nat k ∧
     isSubmitting (ticks (take k nows) st) = false ∧
     snapshotWrites (ticks (take k nows) st) = snapshotWrites st) ∧
  timeLeft (ticks nows st) = 0 ∧
  isSubmitting (ticks nows st) = true ∧
  snapshotWrites (ticks nows st) = S (snapshotWrites st) ∧
  resultsNavigations (ticks nows st) = S (resultsNavigations st) ∧
  (timer st = true →
     run (IntervalTick <$> nows) st = ticks nows st ∧
     timer (ticks nows st) = false) ∧
  (∀ more : list string,
     timeLeft (ticks (nows ++ more) st) = 0 ∧
     snapshotWrites (ticks (nows ++ more) st) = S (snapshotWrites st) ∧
     resultsNavigations (ticks (nows ++ more) st)
       = S (resultsNavigations st)).
Proof.
  intros Hlatch Hqs Hstart Hlen.
  assert (∀ now s, 0 ≤ timeLeft s → 0 ≤ timeLeft (tick now s)) as Hnonneg.
  { intros now s H. destruct (Z.le_gt_cases (timeLeft s) 1).
    - by rewrite tick_expiring.
    - rewrite tick_running by done. simpl. lia. }
  assert (∀ now s, 1 ≤ timeLeft s → timeLeft (tick now s) = timeLeft s - 1)
    as Hdec.
  { intros now s H. destruct (Z.le_gt_cases (timeLeft s) 1).
    - rewrite tick_expiring by done. simpl. lia.
    - by rewrite tick_running. }
  assert (∀ now s, timeLeft s = 0 → timeLeft (tick now s) = 0) as Hzero.
  { intros now s H. by rewrite tick_expiring by lia. }
  assert (∀ k : nat, Z.of_nat k < EXAM_DURATION →
     timeLeft (ticks (take k nows) st) = EXAM_DURATION - Z.of_nat k ∧
     isSubmitting (ticks (take k nows) st) = false ∧
     questions (ticks (take k nows) st) = Some qs ∧
     effects (ticks (take k nows) st) = effects st ∧
     timer (ticks (take k nows) st) = timer st) as Hprefix.
  { intros k Hk.
    assert (length (take k nows) = k) as Hlk by (rewrite length_take; lia).
    destruct (ticks_running (take k nows) st) as (Ht & Hs & Hq & He & Hi);
      [lia|].
    rewrite Hlk in Ht. repeat split; congruence. }
  (* the last tick *)
  induction nows as [|n0 ns _] using rev_ind.
  { unfold EXAM_DURATION in Hlen. simpl in Hlen. lia. }
  rewrite length_app in Hlen. simpl in Hlen.
  destruct (Hprefix (length ns)) as (Ht & Hs & Hq & He & Hi); [lia|].
  rewrite take_app_length in Ht, Hs, Hq, He, Hi.
  assert (timeLeft (ticks ns st) = 1) as Hone by lia.
  set (s := ticks ns st) in *.
  set (s1 := emit timeUp (setTimer false s)).
  assert (ticks (ns ++ [n0]) st = setTimeLeft 0 (handleSubmit n0 s1)) as Hend.
  { rewrite ticks_snoc. fold s. by rewrite tick_expiring by lia. }
  destruct (handleSubmit_first n0 s1 qs) as (_ & Hw & Hn); [done..|].
  destruct (handleSubmit_keeps n0 s1) as (_ & _ & _ & _ & _ & Htimer & _).
  assert (snapshotWrites s1 = snapshotWrites st ∧
          resultsNavigations s1 = resultsNavigations st) as [Hw1 Hn1].
  { unfold snapshotWrites, resultsNavigations. subst s1.
    rewrite !count_emit. simpl. rewrite He. lia. }
  assert (timeLeft (ticks (ns ++ [n0]) st) = 0 ∧
          isSubmitting (ticks (ns ++ [n0]) st) = true ∧
          snapshotWrites (ticks (ns ++ [n0]) st) = S (snapshotWrites st) ∧
          resultsNavigations (ticks (ns ++ [n0]) st)
            = S (resultsNavigations st)) as (Ht0 & Hs0 & Hw0 & Hn0).
  { rewrite Hend. repeat split.
    - simpl. apply handleSubmit_sets_latch.
    - change (snapshotWrites (setTimeLeft 0 (handleSubmit n0 s1)))
        with (snapshotWrites (handleSubmit n0 s1)). congruence.
    - change (resultsNavigations (setTimeLeft 0 (handleSubmit n0 s1)))
        with (resultsNavigations (handleSubmit n0 s1)). congruence. }
  split; [done|]. split; [apply start_timeLeft|].
  do 3 (split; [done|]).
  split.
  { intros k Hk. destruct (Hprefix k Hk) as (? & ? & _ & He' & _).
    repeat split; try done. unfold snapshotWrites. by rewrite He'. }
  do 4 (split; [done|]).
  split.
  { intros Htimer'. split.
    - rewrite fmap_app. unfold run. rewrite fold_left_app.
      fold (run (IntervalTick <$> ns) st).
      rewrite (run_ticks_running ns st) by (try done; lia).
      fold s. simpl. rewrite Hi, Htimer'. by rewrite ticks_snoc.
    - rewrite Hend. simpl. by rewrite Htimer. }
  intros more. rewrite ticks_app.
  destruct (ticks_expired more (ticks (ns ++ [n0]) st) Hs0 Ht0)
    as (? & _ & ? & ?).
  repeat split; congruence.
Qed.

Lemma timer_countdown_witness :
  EXAM_DURATION = 7200 ∧
  (∀ now fullscreen can stored p src,
     timeLeft (start now fullscreen can stored p src) = EXAM_DURATION) ∧
  (∀ now s, 0 ≤ timeLeft s → 0 ≤ timeLeft (tick now s)) ∧
  (∀ now s, 1 ≤ timeLeft s → timeLeft (tick now s) = timeLeft s - 1) ∧
  (∀ now s, timeLeft s = 0 → timeLeft (tick now s) = 0) ∧
  (∀ k : nat, Z.of_nat k < EXAM_DURATION →
     timeLeft (ticks (take k examSeconds) session0)
       = EXAM_DURATION - Z.of_nat k ∧
     isSubmitting (ticks (take k examSeconds) session0) = false ∧
     snapshotWrites (ticks (take k examSeconds) session0)
       = snapshotWrites session0) ∧
  timeLeft (ticks examSeconds session0) = 0 ∧
  isSubmitting (ticks examSeconds session0) = true ∧
  snapshotWrites (ticks examSeconds session0) = S (snapshotWrites session0) ∧
  resultsNavigations (ticks examSeconds session0)
    = S (resultsNavigations session0) ∧
  (run (IntervalTick <$> examSeconds) session0 = ticks examSeconds session0 ∧
   timer (ticks examSeconds session0) = false) ∧
  (∀ more : list string,
     timeLeft (ticks (examSeconds ++ more) session0) = 0 ∧
     snapshotWrites (ticks (examSeconds ++ more) session0)
       = S (snapshotWrites session0) ∧
     resultsNavigations (ticks (examSeconds ++ more) session0)
       = S (resultsNavigations session0)).
Proof.
  destruct (timer_countdown session0 paper examSeconds)
    as (H1 & H2 & H3 & H4 & H5 & H6 & H7 & H8 & H9 & H10 & H11 & H12);
    [reflexivity | reflexivity | reflexivity | vm_compute; reflexivity |].
  repeat (split; [assumption|]). split; [|exact H12].
  apply H11. reflexivity.
Defined.

(** ** Navigation *)

Lemma navigate_step (qs : list Question) (d : direction) (st : state) :
  inRange qs (currentQuestionIndex st) →
  currentQuestionIndex (navigate qs d st)
    = clamp (currentQuestionIndex st + delta d) 0 (Z.of_nat (length qs) - 1) ∧
  inRange qs (currentQuestionIndex (navigate qs d st)).
Proof.
  unfold inRange, clamp. intros H. destruct d; simpl; lia.
Qed.

Lemma navigates_in_range
    (qs : list Question) (ds : list direction) (st : state) :
  inRange qs (currentQuestionIndex st) →
  inRange qs (currentQuestionIndex (navigates qs ds st)).
Proof.
  revert st. induction ds as [|d ds IH]; intros st H; [done|].
  change (navigates qs (d :: ds) st) with (navigates qs ds (navigate qs d st)).
  apply IH. by apply navigate_step.
Qed.

Lemma navigates_replicate
    (qs : list Question) (d : direction) (n : nat) (st : state) :
  inRange qs (currentQuestionIndex st) →
  currentQuestionIndex (navigates qs (replicate n d) st)
    = clamp (currentQuestionIndex st + Z.of_nat n * delta d) 0
        (Z.of_nat (length qs) - 1).
Proof.
  revert st. induction n as [|n IH]; intros st H.
  - unfold inRange, clamp in *. simpl. lia.
  - change (navigates qs (replicate (S n) d) st)
      with (navigates qs (replicate n d) (navigate qs d st)).
    destruct (navigate_step qs d st H) as [Hstep Hin].
    rewrite IH by done. rewrite Hstep.
    unfold inRange, clamp in *. destruct d; simpl delta; lia.
Qed.

Lemma at_index_in_range (qs : list Question) (i : Z) :
  inRange qs i → is_Some (at_index qs i).
Proof.
  unfold inRange, at_index. intros H.
  destruct (Z.leb_spec 0 i); [|lia]. apply lookup_lt_is_Some. lia.
Qed.

(** C7. From an index in range, the Prev and Next handlers set
    [currentQuestionIndex] to [clamp(currentQuestionIndex + delta, 0,
    len(questions) - 1)] for their delta of -1 and +1; the handlers are
    total; after any sequence of presses the index is still in range; and
    [n] presses in one direction, a move of magnitude [n], land on the
    clamped [currentQuestionIndex ± n].  The buttons as rendered (Prev
    disabled at 0, Next at the last index) give the same index. *)
Theorem navigate_clamps
    (qs : list Question) (st : state) (ds : list direction) (n : nat) :
  inRange qs (currentQuestionIndex st) →
  let last := Z.of_nat (length qs) - 1 in
  (∀ d, currentQuestionIndex (navigate qs d st)
          = clamp (currentQuestionIndex st + delta d) 0 last) ∧
  inRange qs (currentQuestionIndex (navigates qs ds st)) ∧
  currentQuestionIndex (navigates qs (replicate n Next) st)
    = clamp (currentQuestionIndex st + Z.of_nat n) 0 last ∧
  currentQuestionIndex (navigates qs (replicate n Prev) st)
    = clamp (currentQuestionIndex st - Z.of_nat n) 0 last ∧
  (questions st = Some qs →
     currentQuestionIndex (dispatch ClickPrev st)
       = clamp (currentQuestionIndex st - 1) 0 last ∧
     currentQuestionIndex (dispatch ClickNext st)
       = clamp (currentQuestionIndex st + 1) 0 last).
Proof.
  intros H last. subst last. split; [|split; [|split; [|split]]].
  - intros d. by apply navigate_step.
  - by apply navigates_in_range.
  - rewrite navigates_replicate by done. simpl delta. f_equal. lia.
  - rewrite navigates_replicate by done. simpl delta. f_equal. lia.
  - intros Hqs. destruct (at_index_in_range qs _ H) as [q Hq].
    unfold dispatch, click. rewrite Hqs, Hq.
    unfold inRange, clamp in *. split.
    + destruct (Z.eqb_spec (currentQuestionIndex st) 0); simpl; lia.
    + destruct (Z.eqb_spec (currentQuestionIndex st)
                  (Z.of_nat (length qs) - 1)); simpl; lia.
Qed.

Lemma navigate_clamps_witness :
  let last := Z.of_nat (length paper) - 1 in
  (∀ d, currentQuestionIndex (navigate paper d session0)
          = clamp (currentQuestionIndex session0 + delta d) 0 last) ∧
  inRange paper
    (currentQuestionIndex (navigates paper [Next; Next; Next; Prev] session0)) ∧
  currentQuestionIndex (navigates paper (replicate 7 Next) session0)
    = clamp (currentQuestionIndex session0 + Z.of_nat 7) 0 last ∧
  currentQuestionIndex (navigates paper (replicate 7 Prev) session0)
    = clamp (currentQuestionIndex session0 - Z.of_nat 7) 0 last ∧
  (currentQuestionIndex (dispatch ClickPrev session0)
     = clamp (currentQuestionIndex session0 - 1) 0 last ∧
   currentQuestionIndex (dispatch ClickNext session0)
     = clamp (currentQuestionIndex session0 + 1) 0 last).
Proof.
  destruct (navigate_clamps paper session0 [Next; Next; Next; Prev] 7)
    as (H1 & H2 & H3 & H4 & H5); [unfold inRange; simpl; lia|].
  repeat (split; [assumption|]). apply H5. reflexivity.
Defined.

(** ** Review marks *)

Lemma filter_ne_absent (l : list Z) (x : Z) :
  x ∉ l → filter (λ i, i ≠ x) l = l.
Proof.
  induction l as [|y l IH]; [done|]. intros H.
  apply not_elem_of_cons in H as [Hne Hl].
  rewrite filter_cons_True by congruence. by rewrite IH.
Qed.

Lemma includes_false (l : list Z) (x : Z) : includes l x = false ↔ x ∉ l.
Proof.
  rewrite <- includes_spec. by destruct (includes l x).
Qed.

(** C8. [handleMarkForReview] adds the id when it is absent and removes it
    when present; applied twice to the same id it gives back a list with
    the members of the original, and the original list itself, still
    without the id, when the id was absent. *)
Theorem handleMarkForReview_twice (st : state) (questionId : Z) :
  let st1 := handleMarkForReview questionId st in
  let st2 := handleMarkForReview questionId st1 in
  (questionId ∈ markedForReview st1 ↔ questionId ∉ markedForReview st) ∧
  (∀ x, x ≠ questionId →
        (x ∈ markedForReview st1 ↔ x ∈ markedForReview st)) ∧
  (∀ x, x ∈ markedForReview st2 ↔ x ∈ markedForReview st) ∧
  (questionId ∉ markedForReview st →
     markedForReview st2 = markedForReview st ∧
     questionId ∉ markedForReview st2).
Proof.
  simpl. unfold handleMarkForReview. simpl.
  destruct (includes (markedForReview st) questionId) eqn:E.
  - apply includes_spec in E.
    assert (includes (filter (λ i, i ≠ questionId) (markedForReview st))
              questionId = false) as ->.
    { apply includes_false. rewrite list_elem_of_filter. tauto. }
    split; [|split; [|split]].
    + rewrite list_elem_of_filter. tauto.
    + intros x Hx. rewrite list_elem_of_filter. tauto.
    + intros x.
      rewrite elem_of_app, list_elem_of_filter, list_elem_of_singleton.
      destruct (decide (x = questionId)) as [->|]; tauto.
    + done.
  - apply includes_false in E.
    assert (includes (markedForReview st ++ [questionId]) questionId = true)
      as ->.
    { apply includes_spec, elem_of_app. right. by apply list_elem_of_singleton. }
    rewrite filter_app, filter_ne_absent by done.
    rewrite filter_cons_False, filter_nil, app_nil_r by tauto.
    split; [|split; [|split]].
    + rewrite elem_of_app, list_elem_of_singleton. tauto.
    + intros x Hx. rewrite elem_of_app, list_elem_of_singleton. tauto.
    + done.
    + done.
Qed.

Lemma handleMarkForReview_twice_witness :
  markedForReview (handleMarkForReview 5 (handleMarkForReview 5 session0))
    = markedForReview session0 ∧
  5 ∉ markedForReview (handleMarkForReview 5 (handleMarkForReview 5 session0)).
Proof.
  destruct (handleMarkForReview_twice session0 5) as (_ & _ & _ & Habsent).
  apply Habsent. apply not_elem_of_nil.
Defined.

Example toggle_5_twice :
  markedForReview (handleMarkForReview 5 session0) = [5] ∧
  markedForReview (handleMarkForReview 5 (handleMarkForReview 5 session0)) = [].
Proof. split; reflexivity. Qed.

(** ** Loading *)

(** Which source [loadedQuestions] comes from. *)
Lemma resolveQuestions_source (p : SearchParams) (src : Sources) (st : state) :
  (resolveQuestions p src st).2 =
  if truthy (customExamKey p) then customQuestionsStr src
  else if truthy (offlineTestKey p)
       then offlineQuestions <$> offlineDataRaw src
  else if truthy (examSlug p) && truthy (year p) && truthy (examBoard p)
       then fetched src
  else None.
Proof.
  unfold resolveQuestions. by repeat case_match.
Qed.

(** A successful resolution leaves the session cells alone and requests no
    navigation. *)
Lemma resolveQuestions_success
    (p : SearchParams) (src : Sources) (st : state) (loaded : list Question) :
  (resolveQuestions p src st).2 = Some loaded →
  let st' := (resolveQuestions p src st).1 in
  questions st' = questions st ∧ timer st' = timer st ∧
  listeners st' = listeners st ∧ isSubmitting st' = isSubmitting st ∧
  navigations st' = navigations st.
Proof.
  unfold resolveQuestions, navigations.
  repeat case_match; simpl; intros; simplify_eq;
    repeat split; try done; rewrite !count_app; unfold count; simpl; lia.
Qed.

Lemma rerunExamEffect_questions (st : state) :
  questions (rerunExamEffect st) = questions st ∧
  effects (rerunExamEffect st) = effects st ∧
  isSubmitting (rerunExamEffect st) = isSubmitting st ∧
  timer (rerunExamEffect st) = bool_decide (is_Some (questions st)) ∧
  listeners (rerunExamEffect st) = bool_decide (is_Some (questions st)).
Proof.
  unfold rerunExamEffect, examEffect, cleanupExamEffect. simpl.
  destruct (questions st) eqn:E; simpl; rewrite ?E; repeat split;
    symmetry; apply bool_decide_eq_true || apply bool_decide_eq_false;
    rewrite ?is_Some_alt; eauto.
Qed.

Lemma loadQuestions_stores
    (p : SearchParams) (src : Sources) (st : state) (loaded : list Question) :
  (resolveQuestions p src st).2 = Some loaded → loaded ≠ [] →
  questions (loadQuestions p src st) = Some loaded.
Proof.
  unfold loadQuestions. destruct (resolveQuestions p src st) as [st' r].
  simpl. intros -> Hne. destruct loaded as [|q l]; [done|].
  by destruct (Z.ltb_spec 0 (Z.of_nat (length (q :: l)))); [|simpl in *; lia].
Qed.

(** C9. When the source resolves to a non-empty list, the questions of the
    session are that list, element for element and in the same order;
    [shuffleArray] takes no part in it. *)
Theorem questions_in_loaded_order
    (now : string) (fullscreen can : bool) (stored : option Snapshot)
    (p : SearchParams) (src : Sources) (st : state)
    (loaded : list Question) :
  (resolveQuestions p src st).2 = Some loaded → loaded ≠ [] →
  questions (loadQuestions p src st) = Some loaded ∧
  questions (start now fullscreen can stored p src) = Some loaded ∧
  (∀ (i : nat) (qs : list Question),
     questions (start now fullscreen can stored p src) = Some qs →
     qs !! i = loaded !! i).
Proof.
  intros Hres Hne.
  assert (questions (start now fullscreen can stored p src) = Some loaded)
    as Hstart.
  { unfold start. destruct (rerunExamEffect_questions
      (loadQuestions p src (examEffect (mount now fullscreen can stored))))
      as [-> _].
    apply loadQuestions_stores; [|done].
    rewrite resolveQuestions_source in *. done. }
  split; [by apply loadQuestions_stores|]. split; [done|].
  intros i qs Hqs. congruence.
Qed.

Lemma questions_in_loaded_order_witness :
  questions (loadQuestions datasetParams (fetchedPaper paper) session0)
    = Some paper ∧
  questions (start "09:00:00" true true None datasetParams (fetchedPaper paper))
    = Some paper ∧
  (∀ (i : nat) (qs : list Question),
     questions
       (start "09:00:00" true true None datasetParams (fetchedPaper paper))
       = Some qs →
     qs !! i = paper !! i).
Proof.
  apply (questions_in_loaded_order "09:00:00" true true None datasetParams
           (fetchedPaper paper) session0 paper); [reflexivity | discriminate].
Defined.

(** [shuffleArray] would reorder: with draws 0.9, 0.1, 0.5 the paper comes
    out as questions 2, 5, 1, while the session holds it as loaded. *)
Example shuffleArray_reorders :
  let random (i : nat) : Q :=
    match i with O => 9 # 10 | S O => 1 # 10 | _ => 5 # 10 end in
  shuffleArray random paper = [question2; question5; question1] ∧
  questions session0 = Some [question1; question2; question5].
Proof. split; reflexivity. Qed.

(** ** The empty question list *)

Lemma dispatch_loading (ev : event) (st : state) :
  questions st = None → timer st = false → listeners st = false →
  questions (dispatch ev st) = None ∧ timer (dispatch ev st) = false ∧
  listeners (dispatch ev st) = false ∧
  isSubmitting (dispatch ev st) = isSubmitting st ∧
  effects (dispatch ev st) = effects st.
Proof.
  intros Hq Ht Hl. destruct ev; simpl; rewrite ?Hq, ?Ht, ?Hl; done.
Qed.

Lemma run_loading (evs : list event) (st : state) :
  questions st = None → timer st = false → listeners st = false →
  questions (run evs st) = None ∧ timer (run evs st) = false ∧
  listeners (run evs st) = false ∧
  isSubmitting (run evs st) = isSubmitting st ∧
  effects (run evs st) = effects st.
Proof.
  revert st. induction evs as [|ev evs IH]; intros st Hq Ht Hl; [done|].
  change (run (ev :: evs) st) with (run evs (dispatch ev st)).
  destruct (dispatch_loading ev st Hq Ht Hl) as (Hq' & Ht' & Hl' & Hs' & He').
  destruct (IH (dispatch ev st) Hq' Ht' Hl') as (? & ? & ? & ? & ?).
  repeat split; congruence.
Qed.

(** C10. When the source resolves to an empty list, [questions] stays
    [null]: the timer and the listeners are not installed, the loading
    screen is rendered, nothing is submitted and no navigation is
    requested; and whatever events follow, all of this stays so. *)
Theorem empty_load_stays_loading
    (now : string) (fullscreen can : bool) (stored : option Snapshot)
    (p : SearchParams) (src : Sources) (evs : list event) :
  (resolveQuestions p src (examEffect (mount now fullscreen can stored))).2
    = Some [] →
  let st := start now fullscreen can stored p src in
  (questions st = None ∧ timer st = false ∧ listeners st = false ∧
   render st = LoadingScreen ∧ isSubmitting st = false ∧
   navigations st = 0%nat) ∧
  (questions (run evs st) = None ∧ timer (run evs st) = false ∧
   listeners (run evs st) = false ∧ render (run evs st) = LoadingScreen ∧
   isSubmitting (run evs st) = false ∧ navigations (run evs st) = 0%nat).
Proof.
  intros Hres st.
  set (st0 := examEffect (mount now fullscreen can stored)) in *.
  destruct (resolveQuestions_success p src st0 [] Hres)
    as (Hq & Ht & Hl & Hs & Hn).
  assert (loadQuestions p src st0 = (resolveQuestions p src st0).1) as Hload.
  { unfold loadQuestions. destruct (resolveQuestions p src st0) as [s r].
    simpl in Hres. by subst r. }
  assert (st = rerunExamEffect (resolveQuestions p src st0).1) as Hst.
  { subst st. unfold start. fold st0. by rewrite Hload. }
  clearbody st. subst st.
  destruct (rerunExamEffect_questions (resolveQuestions p src st0).1)
    as (Hq1 & He1 & Hs1 & Ht1 & Hl1).
  set (st := rerunExamEffect (resolveQuestions p src st0).1) in *.
  assert (questions st = None) as Hqst by (rewrite Hq1, Hq; done).
  assert (timer st = false) as Htst by (rewrite Ht1, Hq; done).
  assert (listeners st = false) as Hlst by (rewrite Hl1, Hq; done).
  assert (isSubmitting st = false) as Hsst by (rewrite Hs1, Hs; done).
  assert (navigations st = 0%nat) as Hnst.
  { unfold navigations in *. rewrite He1, Hn. done. }
  destruct (run_loading evs st Hqst Htst Hlst) as (Hq' & Ht' & Hl' & Hs' & He').
  split; repeat split; try done.
  - unfold render. by rewrite Hqst.
  - unfold render. by rewrite Hq'.
  - congruence.
  - unfold navigations in *. by rewrite He'.
Qed.

Lemma empty_load_stays_loading_witness :
  let st := emptyLoad in
  let evs := [IntervalTick "09:00:01"; VisibilityChange true "09:00:02";
              RadioValueChange "4"; ConfirmSubmit "09:00:03"; ClickNext] in
  (questions st = None ∧ timer st = false ∧ listeners st = false ∧
   render st = LoadingScreen ∧ isSubmitting st = false ∧
   navigations st = 0%nat) ∧
  (questions (run evs st) = None ∧ timer (run evs st) = false ∧
   listeners (run evs st) = false ∧ render (run evs st) = LoadingScreen ∧
   isSubmitting (run evs st) = false ∧ navigations (run evs st) = 0%nat).
Proof.
  apply (empty_load_stays_loading "09:00:00" true true None datasetParams
           (fetchedPaper [])).
  reflexivity.
Defined.

(** ** Sequences of answer operations *)

Lemma perform_lookup (o : operation) (st : state) (q : Z) :
  answers (perform o st) !! q =
  if bool_decide (target o st = Some q) then outcome o else answers st !! q.
Proof.
  destruct o as [questionId answer| | |]; simpl.
  - case_bool_decide as E.
    + simplify_eq. apply lookup_insert_eq.
    + apply lookup_insert_ne. congruence.
  - unfold clearResponse, currentId.
    destruct (questions st) as [qs|]; simpl; [|done].
    destruct (at_index qs (currentQuestionIndex st)) as [cur|]; simpl; [|done].
    case_bool_decide as E.
    + simplify_eq. apply lookup_delete_eq.
    + apply lookup_delete_ne. congruence.
  - done.
  - by destruct (questions st).
Qed.

Lemma performAll_lookup (ops : list operation) (st : state) (q : Z) :
  answers (performAll ops st) !! q
    = default (answers st !! q) (lastOperation q ops st).
Proof.
  revert st. induction ops as [|o ops IH]; intros st; [done|].
  change (performAll (o :: ops) st) with (performAll ops (perform o st)).
  rewrite IH. simpl.
  destruct (lastOperation q ops (perform o st)) as [r|]; [done|].
  rewrite perform_lookup. by case_bool_decide.
Qed.

Lemma perform_valid (qs : list Question) (o : operation) (st : state) :
  answersValid qs (answers st) → operationValid qs o = true →
  answersValid qs (answers (perform o st)).
Proof.
  unfold answersValid. intros Hvalid Ho.
  destruct o as [questionId answer| | |]; simpl in *.
  - by apply map_Forall_insert_2.
  - unfold clearResponse. destruct (questions st) as [qs'|]; simpl; [|done].
    destruct (at_index qs' (currentQuestionIndex st)); simpl; [|done].
    by apply map_Forall_delete.
  - done.
  - by destruct (questions st).
Qed.

Lemma performAll_valid
    (qs : list Question) (ops : list operation) (st : state) :
  answersValid qs (answers st) → forallb (operationValid qs) ops = true →
  answersValid qs (answers (performAll ops st)).
Proof.
  revert st. induction ops as [|o ops IH]; intros st Hvalid Hops; [done|].
  simpl in Hops. apply andb_prop in Hops as [Ho Hops].
  change (performAll (o :: ops) st) with (performAll ops (perform o st)).
  apply IH; [|done]. by apply perform_valid.
Qed.

(** C4, as the code has it.  After any sequence of select and clear
    operations (interleaved with moves) the answer for each question id is
    what the last operation on that id left: the selected value, nothing
    after a clear, the initial entry when no operation touched the id.
    [handleAnswerSelect] stores the value it is given without comparing it
    with the options; the map holds option values only, provided it did so
    at the start and every selected value was an option of its question. *)
Theorem answers_reflect_last_operation
    (st : state) (qs : list Question) (ops : list operation)
    (q : Z) (v : string) :
  questions st = Some qs →
  answers (performAll ops st) !! q
    = default (answers st !! q) (lastOperation q ops st) ∧
  answers (handleAnswerSelect q v st) !! q = Some v ∧
  (answersValid qs (answers st) →
   forallb (operationValid qs) ops = true →
   answersValid qs (answers (performAll ops st))).
Proof.
  intros _. split; [apply performAll_lookup|]. split.
  - apply lookup_insert_eq.
  - apply performAll_valid.
Qed.

Lemma answers_reflect_last_operation_witness :
  answers (performAll sampleOperations session0) !! 1
    = default (answers session0 !! 1)
        (lastOperation 1 sampleOperations session0) ∧
  answers (handleAnswerSelect 1 "5" session0) !! 1 = Some "5" ∧
  answersValid paper (answers (performAll sampleOperations session0)).
Proof.
  destruct (answers_reflect_last_operation session0 paper sampleOperations
              1 "5" eq_refl) as (Hlast & Hstore & Hvalid).
  split; [exact Hlast|]. split; [exact Hstore|].
  apply Hvalid; [apply map_Forall_empty | reflexivity].
Defined.

Example sampleOperations_outcome :
  answers (performAll sampleOperations session0) !! 1 = Some "4" ∧
  answers (performAll sampleOperations session0) !! 2 = None ∧
  lastOperation 1 sampleOperations session0 = Some (Some "4") ∧
  lastOperation 2 sampleOperations session0 = Some None ∧
  lastOperation 5 sampleOperations session0 = None.
Proof. repeat split; vm_compute; reflexivity. Qed.

(** C4 fails as stated: in the unsubmitted session [session0] question 1
    has the options 3, 4 and 5, and selecting "7" for it stores "7". *)
Lemma invalid_selection_is_stored :
  questions session0 = Some paper ∧
  isSubmitting session0 = false ∧
  options question1 = ["3"; "4"; "5"] ∧
  isOptionOf paper 1 "7" = false ∧
  answers (handleAnswerSelect 1 "7" session0) !! 1 = Some "7" ∧
  answers (performAll [SelectAnswer 1 "4"; SelectAnswer 1 "7"] session0) !! 1
    = Some "7".
Proof. repeat split; vm_compute; reflexivity. Qed.

(** * Further properties *)

(** ** Shuffling *)

Lemma insertByKey_perm (x : Q * Question) (l : list (Q * Question)) :
  insertByKey x l ≡ₚ x :: l.
Proof.
  induction l as [|y l IH]; simpl; [done|].
  destruct (Qle_bool (fst x) (fst y)); [done|].
  rewrite IH. apply Permutation_swap.
Qed.

Lemma sortByKey_perm (l : list (Q * Question)) : sortByKey l ≡ₚ l.
Proof.
  induction l as [|x l IH]; simpl; [done|].
  rewrite insertByKey_perm. by rewrite IH.
Qed.

Lemma imap_tagged_snd (f : nat → Q) (l : list Question) :
  map snd (imap (λ i q, (f i, q)) l) = l.
Proof.
  revert f. induction l as [|x l IH]; intros f; [done|].
  simpl. f_equal. apply (IH (f ∘ S)).
Qed.

(** X1. Whatever [Math.random] draws, [shuffleArray] returns a permutation
    of its argument: every question is kept, none is duplicated, and the
    length is the same. *)
Theorem shuffleArray_permutation (random : nat → Q) (array : list Question) :
  shuffleArray random array ≡ₚ array ∧
  length (shuffleArray random array) = length array ∧
  ∀ q : Question, q ∈ shuffleArray random array ↔ q ∈ array.
Proof.
  assert (shuffleArray random array ≡ₚ array) as Hperm.
  { unfold shuffleArray.
    rewrite (fmap_Permutation snd _ _ (sortByKey_perm _)).
    change (map snd (imap (λ i q, (random i, q)) array) ≡ₚ array).
    by rewrite imap_tagged_snd. }
  split; [done|]. split.
  - by rewrite Hperm.
  - intros q. by rewrite Hperm.
Qed.





(** ** Loading: failures, stale results, a clean start *)

Lemma loadQuestions_failed
    (p : SearchParams) (src : Sources) (st : state) :
  (resolveQuestions p src st).2 = None →
  loadQuestions p src st = (resolveQuestions p src st).1.
Proof.
  unfold loadQuestions. destruct (resolveQuestions p src st) as [s r].
  simpl. by intros ->.
Qed.

(** X3. When no question list can be resolved (missing custom or offline
    data, failed request, unusable parameters) [loadQuestions] creates no
    session: [questions] keeps its value, nothing is submitted, and exactly
    one error toast and one redirection are requested, the redirection
    last, to "/exams/offline" for the offline source and to "/exams"
    otherwise; from a state without questions the loading screen stays and
    neither timer nor listeners are installed. *)
Theorem loadQuestions_failure_redirects
    (p : SearchParams) (src : Sources) (st : state) :
  (resolveQuestions p src st).2 = None →
  let st' := loadQuestions p src st in
  questions st' = questions st ∧
  isSubmitting st' = isSubmitting st ∧
  snapshotWrites st' = snapshotWrites st ∧
  navigations st' = S (navigations st) ∧
  count (isRouterPush (failureRedirect p)) (effects st')
    = S (count (isRouterPush (failureRedirect p)) (effects st)) ∧
  count isErrorToast (effects st') = S (count isErrorToast (effects st)) ∧
  last (effects st') = Some (RouterPush (failureRedirect p)) ∧
  (questions st = None →
     render (rerunExamEffect st') = LoadingScreen ∧
     timer (rerunExamEffect st') = false ∧
     listeners (rerunExamEffect st') = false).
Proof.
  intros Hres st'. subst st'. rewrite loadQuestions_failed by done.
  assert (questions (resolveQuestions p src st).1 = questions st) as Hq.
  { unfold resolveQuestions. by repeat case_match. }
  split; [done|].
  repeat split.
  - unfold resolveQuestions. by repeat case_match.
  - revert Hres. unfold resolveQuestions, snapshotWrites.
    repeat case_match; simpl; intros; simplify_eq;
      rewrite !count_app; unfold count; simpl; lia.
  - revert Hres. unfold resolveQuestions, navigations.
    repeat case_match; simpl; intros; simplify_eq;
      rewrite !count_app; unfold count; simpl; lia.
  - revert Hres. unfold resolveQuestions, failureRedirect.
    repeat case_match; simpl; intros; simplify_eq;
      rewrite !count_app; unfold count; simpl; lia.
  - revert Hres. unfold resolveQuestions.
    repeat case_match; simpl; intros; simplify_eq;
      rewrite !count_app; unfold count; simpl; lia.
  - revert Hres. unfold resolveQuestions, failureRedirect.
    repeat case_match; simpl; intros; simplify_eq;
      by rewrite last_snoc.
  - unfold render.
    destruct (rerunExamEffect_questions (resolveQuestions p src st).1)
      as (-> & _). by rewrite Hq, H.
  - destruct (rerunExamEffect_questions (resolveQuestions p src st).1)
      as (_ & _ & _ & -> & _). by rewrite Hq, H.
  - destruct (rerunExamEffect_questions (resolveQuestions p src st).1)
      as (_ & _ & _ & _ & ->). by rewrite Hq, H.
Qed.

Lemma loadQuestions_failure_redirects_witness :
  let st := mount "09:00:00" true true None in
  let st' := loadQuestions offlineParams nothingStored st in
  questions st' = questions st ∧
  isSubmitting st' = isSubmitting st ∧
  snapshotWrites st' = snapshotWrites st ∧
  navigations st' = S (navigations st) ∧
  count (isRouterPush "/exams/offline") (effects st')
    = S (count (isRouterPush "/exams/offline") (effects st)) ∧
  count isErrorToast (effects st') = S (count isErrorToast (effects st)) ∧
  last (effects st') = Some (RouterPush "/exams/offline") ∧
  (render (rerunExamEffect st') = LoadingScreen ∧
   timer (rerunExamEffect st') = false ∧
   listeners (rerunExamEffect st') = false).
Proof.
  destruct (loadQuestions_failure_redirects offlineParams nothingStored
              (mount "09:00:00" true true None) eq_refl)
    as (H1 & H2 & H3 & H4 & H5 & H6 & H7 & H8).
  repeat (split; [assumption|]). apply H8. reflexivity.
Defined.

(** X4. Whatever the parameters and the sources, [loadQuestions] first
    removes the stored result of a previous exam: afterwards the
    [lastExamData] slot is empty, the removal is the first effect it
    requests, and it writes no snapshot. *)
Theorem loadQuestions_clears_last_result
    (p : SearchParams) (src : Sources) (st : state) :
  lastExamData (loadQuestions p src st) = None ∧
  (∃ rest : list effect,
     effects (loadQuestions p src st)
       = effects st ++ LocalRemoveItem "lastExamData" :: rest) ∧
  snapshotWrites (loadQuestions p src st) = snapshotWrites st.
Proof.
  unfold loadQuestions, resolveQuestions, snapshotWrites.
  repeat case_match; simplify_eq/=; repeat split;
    try (rewrite <- ?(assoc_L (++)); simpl; by eexists);
    rewrite !count_app; unfold count; simpl; lia.
Qed.

(** X5. When a non-empty list is resolved the session starts clean: the
    questions are shown from the first one, no answer and no review mark
    exist, the full duration is on the clock, no violation is counted,
    nothing is submitted or scheduled, every dialog is closed, and the
    timer and both listeners are installed. *)
Theorem start_session_is_clean
    (now : string) (fullscreen can : bool) (stored : option Snapshot)
    (p : SearchParams) (src : Sources) (loaded : list Question) :
  (resolveQuestions p src (examEffect (mount now fullscreen can stored))).2
    = Some loaded →
  loaded ≠ [] →
  let st := start now fullscreen can stored p src in
  render st = ExamScreen ∧ timer st = true ∧ listeners st = true ∧
  currentQuestionIndex st = 0 ∧ inRange loaded (currentQuestionIndex st) ∧
  answers st = ∅ ∧ markedForReview st = [] ∧
  timeLeft st = EXAM_DURATION ∧ violationCount st = 0 ∧
  isSubmitting st = false ∧ startedAt st = now ∧
  isSubmitDialogOpen st = false ∧ isExitDialogOpen st = false ∧
  isViolationDialogOpen st = false ∧
  lastExamData st = None ∧ snapshotWrites st = 0%nat ∧
  navigations st = 0%nat.
Proof.
  intros Hres Hne st. subst st. unfold start.
  set (st0 := examEffect (mount now fullscreen can stored)) in *.
  assert (loadQuestions p src st0
          = setQuestions (Some loaded) (resolveQuestions p src st0).1)
    as Hload.
  { unfold loadQuestions. destruct (resolveQuestions p src st0) as [s r].
    simpl in *. subst r. destruct loaded as [|q l]; [done|].
    by destruct (Z.ltb_spec 0 (Z.of_nat (length (q :: l))));
      [|simpl in *; lia]. }
  rewrite Hload. clear Hload.
  assert (inRange loaded 0) as Hin.
  { unfold inRange. destruct loaded; [done|]. simpl. lia. }
  revert Hres. subst st0.
  unfold resolveQuestions, rerunExamEffect, examEffect, cleanupExamEffect,
    render, snapshotWrites, navigations, count.
  simpl. repeat case_match; simpl; intros; simplify_eq; repeat split;
    first [done | apply Hin].
Qed.

Lemma start_session_is_clean_witness :
  let st := session0 in
  render st = ExamScreen ∧ timer st = true ∧ listeners st = true ∧
  currentQuestionIndex st = 0 ∧ inRange paper (currentQuestionIndex st) ∧
  answers st = ∅ ∧ markedForReview st = [] ∧
  timeLeft st = EXAM_DURATION ∧ violationCount st = 0 ∧
  isSubmitting st = false ∧ startedAt st = "09:00:00" ∧
  isSubmitDialogOpen st = false ∧ isExitDialogOpen st = false ∧
  isViolationDialogOpen st = false ∧
  lastExamData st = None ∧ snapshotWrites st = 0%nat ∧
  navigations st = 0%nat.
Proof.
  apply (start_session_is_clean "09:00:00" true true None datasetParams
           (fetchedPaper paper) paper); [reflexivity | discriminate].
Defined.

Lemma truthy_dropEmpty (o : option string) :
  truthy (dropEmpty o) = truthy o.
Proof. unfold dropEmpty. by destruct (truthy o) eqn:E. Qed.

Lemma orElse_dropEmpty (o : option string) (d : string) :
  orElse (dropEmpty o) d = orElse o d.
Proof.
  unfold orElse. rewrite truthy_dropEmpty. unfold dropEmpty.
  by destruct (truthy o).
Qed.

Lemma default_dropEmpty (o : option string) :
  default "" (dropEmpty o) = default "" o.
Proof.
  unfold dropEmpty. destruct o as [s|]; [|done]. simpl.
  destruct (String.eqb_spec s ""); simpl; congruence.
Qed.

(** X6. A query parameter that is present but empty is read as a missing
    one: replacing every empty parameter by an absent one changes nothing
    in what [loadQuestions] does. *)
Theorem loadQuestions_ignores_empty_parameters
    (p : SearchParams) (src : Sources) (st : state) :
  loadQuestions (dropEmptyParams p) src st = loadQuestions p src st.
Proof.
  unfold loadQuestions, resolveQuestions, dropEmptyParams. simpl.
  by rewrite !truthy_dropEmpty, !orElse_dropEmpty, !default_dropEmpty.
Qed.

(** ** Invariants of the event loop *)

Ltac unfold_handlers :=
  unfold dispatch, click, tick, handleFullscreenChange,
    handleVisibilityChange, handleViolation, clearResponse,
    acknowledgeViolation, requestFullscreen, handleSubmit,
    handleAnswerSelect, handleMarkForReview, onClickPrev, onClickNext,
    rerunExamEffect, examEffect, cleanupExamEffect.

Lemma dispatch_keeps_metadata (ev : event) (st : state) :
  questions (dispatch ev st) = questions st ∧
  examName (dispatch ev st) = examName st ∧
  startedAt (dispatch ev st) = startedAt st.
Proof.
  destruct st as [qs ? ? ? ? ? ? ? latch ? ? ? ? fs ? ? ? ? ?].
  destruct ev; unfold_handlers; simpl; repeat case_match; simplify_eq/=;
    done.
Qed.

(** X7. No event changes the questions, the exam name or the start time:
    after any sequence of events they are what they were. *)
Theorem run_keeps_metadata (evs : list event) (st : state) :
  questions (run evs st) = questions st ∧
  examName (run evs st) = examName st ∧
  startedAt (run evs st) = startedAt st.
Proof.
  revert st. induction evs as [|ev evs IH]; intros st; [done|].
  change (run (ev :: evs) st) with (run evs (dispatch ev st)).
  destruct (IH (dispatch ev st)) as (-> & -> & ->).
  apply dispatch_keeps_metadata.
Qed.




Example violationMix_count :
  violationCount (run violationMix session0) = 4 ∧
  snapshotWrites (run violationMix session0) = 1%nat.
Proof. split; vm_compute; reflexivity. Qed.

(** ** What submits *)

(** X9. In an unsubmitted session showing a question, an event sets the
    latch exactly when it is the tick that finds at most one second left,
    a violation that brings the count to [MAX_VIOLATIONS], or the confirm
    button of the open submit or exit dialog.  Selecting or clearing an
    answer, marking, moving, opening or cancelling a dialog and
    acknowledging a warning never submit. *)
Theorem submission_triggers
    (ev : event) (st : state) (qs : list Question) :
  questions st = Some qs → inRange qs (currentQuestionIndex st) →
  isSubmitting st = false →
  (isSubmitting (dispatch ev st) = true ↔ triggersSubmit ev st = true).
Proof.
  intros Hqs Hin Hlatch.
  destruct (at_index_in_range qs _ Hin) as [q Hq].
  destruct st as [oqs idx ? ? tl ? ? ? latch ? vc ? ? fs ? ? tm lis ?].
  simpl in *. subst.
  destruct ev; unfold_handlers; unfold triggersSubmit; simpl; rewrite ?Hq;
    simpl;
    repeat case_match; simplify_eq/=; split; intros; simplify_eq/=;
    try done; try (rewrite ?andb_true_r, ?andb_false_r in *; congruence).
Qed.

Lemma submission_triggers_witness :
  isSubmitting (dispatch (ConfirmSubmit "10:00:00") answeredSession) = true
    ↔ triggersSubmit (ConfirmSubmit "10:00:00") answeredSession = true.
Proof.
  apply (submission_triggers (ConfirmSubmit "10:00:00") answeredSession
           paper);
    [reflexivity | unfold inRange; vm_compute; split; congruence
     | reflexivity].
Defined.

Example submission_triggers_examples :
  triggersSubmit (ConfirmSubmit "10:00:00") answeredSession = true ∧
  triggersSubmit (ConfirmExit "10:00:00") answeredSession = false ∧
  triggersSubmit (SetSubmitDialog false) answeredSession = false ∧
  triggersSubmit (IntervalTick "10:00:00") answeredSession = false.
Proof. repeat split; vm_compute; reflexivity. Qed.

(** X10. Whichever event submits, the snapshot it writes holds the answers
    as they were just before the event, the questions of the session, its
    name and start time, and the time of the event as submission time. *)
Theorem snapshot_holds_session
    (ev : event) (st : state) (qs : list Question) :
  questions st = Some qs → isSubmitting st = false →
  isSubmitting (dispatch ev st) = true →
  ∃ now : string,
    eventTime ev = Some now ∧
    lastExamData (dispatch ev st)
      = Some {| snapAnswers := answers st; snapQuestions := qs;
                snapExamName := examName st; snapStartedAt := startedAt st;
                snapSubmittedAt := now |}.
Proof.
  destruct st as [oqs idx ? ? tl ? ? ? latch ? vc ? ? fs ? ? tm lis ?].
  simpl. intros -> ->.
  destruct ev; unfold_handlers; unfold snapshot; simpl;
    repeat case_match; simplify_eq/=; intros; simplify_eq/=;
    eexists; split; reflexivity.
Qed.

Lemma snapshot_holds_session_witness :
  ∃ now : string,
    eventTime (ConfirmSubmit "10:00:00") = Some now ∧
    lastExamData (dispatch (ConfirmSubmit "10:00:00") answeredSession)
      = Some {| snapAnswers := answers answeredSession;
                snapQuestions := paper;
                snapExamName := examName answeredSession;
                snapStartedAt := startedAt answeredSession;
                snapSubmittedAt := now |}.
Proof.
  apply (snapshot_holds_session (ConfirmSubmit "10:00:00") answeredSession
           paper); reflexivity.
Defined.

Example answeredSession_snapshot :
  (snapAnswers <$>
     lastExamData (dispatch (ConfirmSubmit "10:00:00") answeredSession))
    = Some (<[2 := "yes"]> (<[1 := "4"]> ∅)).
Proof. vm_compute. reflexivity. Qed.

(** ** The clock under events *)




(** ** Review marks, position and answers under events *)

Lemma toggle_NoDup (l : list Z) (q : Z) :
  NoDup l →
  NoDup (if includes l q then filter (λ i, i ≠ q) l else l ++ [q]).
Proof.
  intros Hl. destruct (includes l q) eqn:E.
  - by apply NoDup_filter.
  - apply includes_false in E. apply NoDup_app. split; [done|]. split.
    + intros x Hx Hq. apply list_elem_of_singleton in Hq. by subst.
    + apply NoDup_singleton.
Qed.

Lemma dispatch_marks (ev : event) (st : state) :
  markedForReview (dispatch ev st) = markedForReview st ∨
  ∃ q : Z, markedForReview (dispatch ev st)
           = markedForReview (handleMarkForReview q st).
Proof.
  destruct ev;
    try (left; destruct st; unfold_handlers; simpl; repeat case_match;
         simplify_eq/=; done).
  unfold dispatch, click. repeat case_match; eauto.
Qed.

(** X12. The list of marked questions never holds an id twice: marking or
    unmarking keeps it free of duplicates, and so does any sequence of
    events. *)
Theorem marks_have_no_duplicates
    (evs : list event) (st : state) (questionId : Z) :
  NoDup (markedForReview st) →
  NoDup (markedForReview (handleMarkForReview questionId st)) ∧
  NoDup (markedForReview (run evs st)).
Proof.
  intros Hnd. split; [by apply toggle_NoDup|].
  revert st Hnd. induction evs as [|ev evs IH]; intros st Hnd; [done|].
  change (run (ev :: evs) st) with (run evs (dispatch ev st)).
  apply IH. destruct (dispatch_marks ev st) as [-> | [q ->]]; [done|].
  by apply toggle_NoDup.
Qed.

Lemma marks_have_no_duplicates_witness :
  NoDup (markedForReview (handleMarkForReview 5 session0)) ∧
  NoDup (markedForReview
           (run [ClickMarkForReview; ClickNext; ClickMarkForReview;
                 ClickPrev; ClickMarkForReview; ClickMarkForReview]
              session0)).
Proof.
  apply (marks_have_no_duplicates
           [ClickMarkForReview; ClickNext; ClickMarkForReview;
            ClickPrev; ClickMarkForReview; ClickMarkForReview]
           session0 5).
  apply NoDup_nil_2.
Defined.

Lemma dispatch_index (ev : event) (st : state) (qs : list Question) :
  questions st = Some qs → inRange qs (currentQuestionIndex st) →
  paletteInRange qs ev = true →
  inRange qs (currentQuestionIndex (dispatch ev st)).
Proof.
  destruct st as [oqs idx ? ? tl ? ? ? latch ? vc ? ? fs ? ? tm lis ?].
  unfold inRange. simpl. intros -> Hin Hpal.
  destruct ev; unfold_handlers; simpl in *; repeat case_match;
    simplify_eq/=; lia.
Qed.

(** X13. The current position never leaves the paper: from a position in
    range, after any sequence of events in which the palette only asks
    for existing positions, [currentQuestionIndex] is in range and
    [questions[currentQuestionIndex]] is a question. *)
Theorem index_stays_in_range
    (evs : list event) (st : state) (qs : list Question) :
  questions st = Some qs → inRange qs (currentQuestionIndex st) →
  forallb (paletteInRange qs) evs = true →
  inRange qs (currentQuestionIndex (run evs st)) ∧
  is_Some (at_index qs (currentQuestionIndex (run evs st))).
Proof.
  intros Hqs Hin Hpal.
  assert (inRange qs (currentQuestionIndex (run evs st))) as H.
  { revert st Hqs Hin. induction evs as [|ev evs IH]; intros st Hqs Hin;
      [done|].
    simpl in Hpal. apply andb_prop in Hpal as [Hev Hevs].
    change (run (ev :: evs) st) with (run evs (dispatch ev st)).
    destruct (dispatch_keeps_metadata ev st) as (Hq & _).
    apply IH; [done | congruence | by apply (dispatch_index ev st qs)]. }
  split; [done | by apply at_index_in_range].
Qed.

Lemma index_stays_in_range_witness :
  let evs := [ClickPrev; ClickNext; ClickNext; ClickNext; ClickNext;
              PaletteSetIndex 2; ClickNext; PaletteSetIndex 0; ClickPrev] in
  inRange paper (currentQuestionIndex (run evs session0)) ∧
  is_Some (at_index paper (currentQuestionIndex (run evs session0))).
Proof.
  apply (index_stays_in_range
           [ClickPrev; ClickNext; ClickNext; ClickNext; ClickNext;
            PaletteSetIndex 2; ClickNext; PaletteSetIndex 0; ClickPrev]
           session0 paper);
    [reflexivity | unfold inRange; simpl; lia | reflexivity].
Defined.

Lemma at_index_None (qs : list Question) (i : Z) :
  at_index qs i = None ↔ ¬ inRange qs i.
Proof.
  unfold at_index, inRange. destruct (Z.leb_spec 0 i).
  - rewrite lookup_ge_None. lia.
  - split; [lia | done].
Qed.

(** X14. [clearResponse] fails (reading [.id] of [undefined]) exactly when
    questions are loaded and the position is outside them; without
    questions it returns without a change, and with a position in range
    it removes the answer of the current question and nothing else. *)
Theorem clearResponse_bounds (st : state) :
  (clearResponse st = None ↔
     ∃ qs, questions st = Some qs ∧ ¬ inRange qs (currentQuestionIndex st)) ∧
  (questions st = None → clearResponse st = Some st) ∧
  (∀ qs, questions st = Some qs → inRange qs (currentQuestionIndex st) →
     ∃ cur st',
       at_index qs (currentQuestionIndex st) = Some cur ∧
       clearResponse st = Some st' ∧
       answers st' !! id cur = None ∧
       ∀ q, q ≠ id cur → answers st' !! q = answers st !! q).
Proof.
  unfold clearResponse. split; [|split].
  - destruct (questions st) as [qs|].
    + destruct (at_index qs (currentQuestionIndex st)) eqn:E.
      * split; [done|]. intros (qs' & Hqs & Hout). simplify_eq.
        apply at_index_None in Hout. congruence.
      * split; [|done]. intros _. exists qs. split; [done|].
        by apply at_index_None.
    + split; [done|]. by intros (? & ? & _).
  - by intros ->.
  - intros qs -> Hin. destruct (at_index_in_range qs _ Hin) as [cur Hcur].
    rewrite Hcur. eexists _, _. split; [done|]. split; [done|]. simpl. split.
    + apply lookup_delete_eq.
    + intros q Hq. by apply lookup_delete_ne.
Qed.

(** X15. Selecting an answer for the current question and then clearing
    the response gives back the answers the session had when the question
    was unanswered, and clearing twice is clearing once. *)
Theorem clear_undoes_select
    (st : state) (qs : list Question) (cur : Question) (value : string) :
  questions st = Some qs →
  at_index qs (currentQuestionIndex st) = Some cur →
  answers st !! id cur = None →
  answers (run [RadioValueChange value; ClickClearResponse] st) = answers st ∧
  answers (run [RadioValueChange value; ClickClearResponse;
                ClickClearResponse] st) = answers st ∧
  answers (run [ClickClearResponse; ClickClearResponse] st)
    = answers (run [ClickClearResponse] st).
Proof.
  destruct st as [oqs idx a ? tl ? ? ? latch ? vc ? ? fs ? ? tm lis ?].
  simpl. intros -> Hcur Hnone.
  unfold run, dispatch, click, clearResponse, handleAnswerSelect,
    rerunExamEffect, examEffect, cleanupExamEffect. simpl.
  rewrite !Hcur. simpl. rewrite !Hcur. simpl. rewrite ?Hcur. simpl.
  rewrite !delete_delete_eq, !delete_insert_eq, !delete_id by done. done.
Qed.

Lemma clear_undoes_select_witness :
  answers (run [RadioValueChange "5"; ClickClearResponse] session0)
    = answers session0 ∧
  answers (run [RadioValueChange "5"; ClickClearResponse;
                ClickClearResponse] session0) = answers session0 ∧
  answers (run [ClickClearResponse; ClickClearResponse] session0)
    = answers (run [ClickClearResponse] session0).
Proof.
  apply (clear_undoes_select session0 paper question1 "5"); reflexivity.
Defined.

Lemma clearResponse_bounds_witness :
  clearResponse (setCurrentQuestionIndex 7 session0) = None ∧
  clearResponse (mount "09:00:00" true true None)
    = Some (mount "09:00:00" true true None).
Proof.
  split.
  - destruct (clearResponse_bounds (setCurrentQuestionIndex 7 session0))
      as (Hnone & _).
    apply Hnone. exists paper. split; [reflexivity|].
    unfold inRange. simpl. lia.
  - destruct (clearResponse_bounds (mount "09:00:00" true true None))
      as (_ & Hloading & _).
    apply Hloading. reflexivity.
Defined.

(** ** The clock display *)

Lemma padStart2_twoDigits (n : Z) :
  0 ≤ n < 100 → padStart2 (showZ n) = twoDigits n.
Proof.
  intros Hn.
  assert (forallb
            (λ k : nat,
               String.eqb (padStart2 (showZ (Z.of_nat k)))
                 (twoDigits (Z.of_nat k)))
            (seq 0 100) = true) as Hall by (vm_compute; reflexivity).
  rewrite forallb_forall in Hall.
  specialize (Hall (Z.to_nat n)). rewrite Z2Nat.id in Hall by lia.
  apply String.eqb_eq, Hall, in_seq. lia.
Qed.

Lemma digit_inj (a b : Z) : 0 ≤ a < 10 → 0 ≤ b < 10 → digit a = digit b → a = b.
Proof.
  unfold digit. intros Ha Hb H.
  apply (f_equal Ascii.nat_of_ascii) in H.
  rewrite !Ascii.nat_ascii_embedding in H by lia. lia.
Qed.

Lemma twoDigits_inj (a b : Z) :
  0 ≤ a < 100 → 0 ≤ b < 100 → twoDigits a = twoDigits b → a = b.
Proof.
  unfold twoDigits. intros Ha Hb H. injection H as H1 H2.
  apply digit_inj in H2; [|by apply Z.mod_pos_bound..].
  apply digit_inj in H1;
    [|split; [apply Z.div_pos|apply Z.div_lt_upper_bound]; lia..].
  rewrite (Z.div_mod a 10), (Z.div_mod b 10) by lia. congruence.
Qed.

Lemma formatTime_parts (seconds : Z) :
  0 ≤ seconds < 360000 →
  0 ≤ seconds / 3600 < 100 ∧ 0 ≤ seconds mod 3600 / 60 < 60 ∧
  0 ≤ seconds mod 60 < 60 ∧
  Z.rem seconds 3600 = seconds mod 3600 ∧ Z.rem seconds 60 = seconds mod 60 ∧
  seconds = 3600 * (seconds / 3600) + 60 * (seconds mod 3600 / 60)
            + seconds mod 60.
Proof.
  intros H. rewrite !Z.rem_mod_nonneg by lia.
  pose proof (Z.div_mod seconds 3600 ltac:(lia)) as H1.
  pose proof (Z.mod_pos_bound seconds 3600 ltac:(lia)) as H2.
  pose proof (Z.div_mod (seconds mod 3600) 60 ltac:(lia)) as H3.
  pose proof (Z.mod_pos_bound (seconds mod 3600) 60 ltac:(lia)) as H4.
  pose proof (Z.mod_pos_bound seconds 60 ltac:(lia)) as H5.
  assert ((seconds mod 3600) mod 60 = seconds mod 60) as H6.
  { rewrite H1 at 2. replace (3600 * (seconds / 3600) + seconds mod 3600)
      with (seconds mod 3600 + (60 * (seconds / 3600)) * 60) by lia.
    by rewrite Z.mod_add by lia. }
  repeat split; lia.
Qed.

Lemma formatTime_digits (seconds : Z) :
  0 ≤ seconds < 360000 →
  formatTime seconds
    = twoDigits (seconds / 3600) +:+ ":" +:+
      twoDigits (seconds mod 3600 / 60) +:+ ":" +:+
      twoDigits (seconds mod 60).
Proof.
  intros H.
  destruct (formatTime_parts seconds H) as (Hh & Hm & Hs & Hr1 & Hr2 & _).
  unfold formatTime. rewrite Hr1, Hr2.
  by rewrite !padStart2_twoDigits by lia.
Qed.

(** X16. For a number of seconds from 0 up to 359999 [formatTime] gives
    the clock reading "HH:MM:SS": two digits of hours, two of minutes, two
    of seconds, separated by colons, eight characters in all. *)
Theorem formatTime_clock (seconds : Z) :
  0 ≤ seconds < 360000 →
  formatTime seconds
    = twoDigits (seconds / 3600) +:+ ":" +:+
      twoDigits (seconds mod 3600 / 60) +:+ ":" +:+
      twoDigits (seconds mod 60) ∧
  String.length (formatTime seconds) = 8%nat.
Proof.
  intros H. rewrite formatTime_digits by done. split; reflexivity.
Qed.

Lemma formatTime_clock_witness :
  formatTime 5025
    = twoDigits (5025 / 3600) +:+ ":" +:+
      twoDigits (5025 mod 3600 / 60) +:+ ":" +:+
      twoDigits (5025 mod 60) ∧
  String.length (formatTime 5025) = 8%nat.
Proof. apply (formatTime_clock 5025). lia. Defined.

Example formatTime_examples :
  formatTime EXAM_DURATION = "02:00:00" ∧ formatTime 5025 = "01:23:45" ∧
  formatTime 0 = "00:00:00" ∧ formatTime 359999 = "99:59:59" ∧
  formatTime 360000 = "100:00:00" ∧ formatTime (-1) = "-1:-1:-1".
Proof. repeat split; vm_compute; reflexivity. Qed.

(** X17. Two different times on the clock are never displayed alike: on
    0..359999 [formatTime] is injective. *)
Theorem formatTime_injective (a b : Z) :
  0 ≤ a < 360000 → 0 ≤ b < 360000 →
  formatTime a = formatTime b → a = b.
Proof.
  intros Ha Hb H.
  rewrite (formatTime_digits a Ha), (formatTime_digits b Hb) in H.
  destruct (formatTime_parts a Ha) as (Hah & Ham & Has & _ & _ & Hadec).
  destruct (formatTime_parts b Hb) as (Hbh & Hbm & Hbs & _ & _ & Hbdec).
  unfold twoDigits in H. simpl in H.
  injection H as H1 H2 H3 H4 H5 H6.
  assert (twoDigits (a / 3600) = twoDigits (b / 3600)) as Eh
    by (unfold twoDigits; congruence).
  assert (twoDigits (a mod 3600 / 60) = twoDigits (b mod 3600 / 60)) as Em
    by (unfold twoDigits; congruence).
  assert (twoDigits (a mod 60) = twoDigits (b mod 60)) as Es
    by (unfold twoDigits; congruence).
  apply twoDigits_inj in Eh; [|lia..].
  apply twoDigits_inj in Em; [|lia..].
  apply twoDigits_inj in Es; [|lia..].
  rewrite Hadec, Hbdec. congruence.
Qed.

Lemma formatTime_injective_witness :
  formatTime 5025 = formatTime (5024 + 1) ∧ 5025 = 5024 + 1.
Proof.
  split; [reflexivity|].
  apply (formatTime_injective 5025 (5024 + 1)); [lia | lia | reflexivity].
Defined.

(** ** The screen after an action *)

Lemma includes_toggle (l : list Z) (q : Z) :
  includes (if includes l q then filter (λ i, i ≠ q) l else l ++ [q]) q
    = negb (includes l q).
Proof.
  destruct (includes l q) eqn:E; simpl.
  - apply includes_false. rewrite list_elem_of_filter. tauto.
  - apply includes_spec, elem_of_app. right. by apply list_elem_of_singleton.
Qed.

(** X18. On the exam screen the controls show what was just done: after
    choosing an option the radio group holds that value, after clearing
    the response it holds the empty value, and each press on the review
    button flips the mark of the current question, two presses giving the
    mark back. *)
Theorem screen_shows_last_action
    (st : state) (qs : list Question) (cur : Question) (value : string) :
  questions st = Some qs →
  at_index qs (currentQuestionIndex st) = Some cur →
  radioValue (dispatch (RadioValueChange value) st) = Some value ∧
  radioValue (dispatch ClickClearResponse st) = Some "" ∧
  isMarked (dispatch ClickMarkForReview st) = negb <$> isMarked st ∧
  isMarked (run [ClickMarkForReview; ClickMarkForReview] st) = isMarked st.
Proof.
  destruct st as [oqs idx a mk tl ? ? ? latch ? vc ? ? fs ? ? tm lis ?].
  simpl. intros -> Hcur.
  unfold radioValue, isMarked, currentQuestion, run, dispatch, click,
    clearResponse, handleAnswerSelect, handleMarkForReview,
    rerunExamEffect, examEffect, cleanupExamEffect.
  simpl. rewrite !Hcur. simpl. rewrite ?Hcur. simpl.
  rewrite lookup_insert_eq, lookup_delete_eq. simpl.
  repeat split.
  - f_equal. apply includes_toggle.
  - rewrite ?Hcur. simpl. f_equal.
    rewrite (includes_toggle
               (if includes mk (id cur)
                then filter (λ i, i ≠ id cur) mk else mk ++ [id cur])).
    rewrite includes_toggle. apply negb_involutive.
Qed.

Lemma screen_shows_last_action_witness :
  radioValue (dispatch (RadioValueChange "5") session0) = Some "5" ∧
  radioValue (dispatch ClickClearResponse session0) = Some "" ∧
  isMarked (dispatch ClickMarkForReview session0)
    = negb <$> isMarked session0 ∧
  isMarked (run [ClickMarkForReview; ClickMarkForReview] session0)
    = isMarked session0.
Proof.
  apply (screen_shows_last_action session0 paper question1 "5");
    reflexivity.
Defined.

Lemma dispatch_keeps_answers (ev : event) (st : state) :
  isAnswerEvent ev = false → answers (dispatch ev st) = answers st.
Proof.
  destruct st as [oqs idx a mk tl ? ? ? latch ? vc ? ? fs ? ? tm lis ?].
  destruct ev; try discriminate; intros _; unfold_handlers; simpl;
    repeat case_match; simplify_eq/=; done.
Qed.

Lemma dispatch_keeps_marks (ev : event) (st : state) :
  isMarkEvent ev = false →
  markedForReview (dispatch ev st) = markedForReview st.
Proof.
  destruct st as [oqs idx a mk tl ? ? ? latch ? vc ? ? fs ? ? tm lis ?].
  destruct ev; try discriminate; intros _; unfold_handlers; simpl;
    repeat case_match; simplify_eq/=; done.
Qed.

(** X19. Only choosing an option or clearing the response changes the
    answers, and only the review button changes the marks: moving between
    questions, ticks, violations, dialogs and even submitting leave the
    answers of a sequence of events without answer events, and the marks
    of a sequence without mark events, as they were. *)
Theorem answers_and_marks_survive (evs : list event) (st : state) :
  (forallb (λ ev, negb (isAnswerEvent ev)) evs = true →
     answers (run evs st) = answers st) ∧
  (forallb (λ ev, negb (isMarkEvent ev)) evs = true →
     markedForReview (run evs st) = markedForReview st).
Proof.
  split; revert st; induction evs as [|ev evs IH]; intros st Hall;
    try done; simpl in Hall; apply andb_prop in Hall as [Hev Hevs];
    change (run (ev :: evs) st) with (run evs (dispatch ev st));
    rewrite IH by done; apply negb_true_iff in Hev.
  - by apply dispatch_keeps_answers.
  - by apply dispatch_keeps_marks.
Qed.

Lemma answers_and_marks_survive_witness :
  let evs := [ClickNext; IntervalTick "10:00:01"; ClickPrev;
              VisibilityChange true "10:00:02"; AcknowledgeViolation;
              PaletteSetIndex 2; ConfirmSubmit "10:00:03"] in
  answers (run evs answeredSession) = answers answeredSession ∧
  markedForReview (run evs answeredSession)
    = markedForReview answeredSession.
Proof.
  destruct (answers_and_marks_survive
              [ClickNext; IntervalTick "10:00:01"; ClickPrev;
               VisibilityChange true "10:00:02"; AcknowledgeViolation;
               PaletteSetIndex 2; ConfirmSubmit "10:00:03"]
              answeredSession) as [Hanswers Hmarks].
  split; [apply Hanswers | apply Hmarks]; reflexivity.
Defined.
